(** * Task orchestration core: rate limiter, worker health monitor, orchestrator

    Shallow embedding of
    - [RateLimiter] (src/src/monitoring/MonitoringService.ts),
    - [WorkerHealthMonitor.calculatePerformanceMetrics]
      (src/src/orchestration/WorkerHealthMonitor.ts),
    - [TaskOrchestrator] (src/src/orchestration/TaskOrchestrator.ts).

    Conventions.  JS numbers are modelled as [Q] where the source computes
    fractions (rates, delays, scores) and as [Z] where they are counters or
    millisecond timestamps.  [Date.now()] is an explicit argument [now];
    [Math.random()] is an explicit argument [r] (with [0 <= r < 1]).  The
    local-calendar boundaries [getNextDayReset] / [getNextHourReset] depend
    on the clock only and are passed as functions of [now]. *)

From Stdlib Require Import String ZArith QArith Qround List Bool Lia Lqa Permutation.
Import ListNotations.

Open Scope Z_scope.

(** [Math.max(a, b)] and [Math.min(a, b)] on rationals. *)
Definition Qjsmax (a b : Q) : Q := if Qle_bool a b then b else a.
Definition Qjsmin (a b : Q) : Q := if Qle_bool a b then a else b.
(** [a < b] on rationals. *)
Definition Qlt_bool (a b : Q) : bool := negb (Qle_bool b a).

(** ** Rate limiter *)
Module RateLimiter.

Record RateLimitConfig := mkConfig {
  accountsPerDay : Z;
  accountsPerHour : Z;
  (** [delayBetweenAccounts: [min, max]] in seconds *)
  delayBetweenAccounts : Q * Q;
  burstLimit : Q;
  cooldownPeriodMs : Z;
  adaptiveRateAdjustment : bool
}.

Record RateLimitState := mkState {
  accountsCreatedToday : Z;
  accountsCreatedThisHour : Z;
  lastAccountCreation : Z;
  currentDelay : Q;
  isInCooldown : bool;
  cooldownUntil : option Z;
  successRate : Q;
  recentAttempts : list (Z * bool)
}.

(** The constructor: [burstLimit = Math.min(10, accountsPerHour / 4)],
    [cooldownPeriodMs = 30 * 60 * 1000], adaptive adjustment on. *)
Definition fromSystemConfig (perDay perHour : Z) (delays : Q * Q) : RateLimitConfig :=
  {| accountsPerDay := perDay;
     accountsPerHour := perHour;
     delayBetweenAccounts := delays;
     burstLimit := Qjsmin 10 (inject_Z perHour / 4)%Q;
     cooldownPeriodMs := 30 * 60 * 1000;
     adaptiveRateAdjustment := true |}.

Definition initialState (cfg : RateLimitConfig) : RateLimitState :=
  {| accountsCreatedToday := 0;
     accountsCreatedThisHour := 0;
     lastAccountCreation := 0;
     currentDelay := (fst (delayBetweenAccounts cfg) * 1000)%Q;
     isInCooldown := false;
     cooldownUntil := None;
     successRate := 1%Q;
     recentAttempts := [] |}.

(** Denial reasons; the source's strings are
    'System in cooldown period', 'Daily limit reached',
    'Hourly limit reached', 'Minimum delay not met', 'Burst limit exceeded'. *)
Inductive Reason :=
| CooldownActive
| DailyLimit
| HourlyLimit
| MinDelayNotElapsed
| BurstLimit.

(** Result of [canCreateAccount]: [allowed], or a denial with
    [reason], [waitTimeMs] and [nextAvailableSlot]. *)
Inductive Decision :=
| Allowed
| Denied (reason : Reason) (waitTimeMs : Q) (nextAvailableSlot : Z).

(** [getRecentCreations(timeWindowMs)] *)
Definition getRecentCreations (now : Z) (st : RateLimitState) (timeWindowMs : Z) : Z :=
  let cutoff := now - timeWindowMs in
  Z.of_nat (length (filter (fun a => cutoff <? fst a) (recentAttempts st))).

Section CanCreate.
Variable cfg : RateLimitConfig.
(** [getNextDayReset()] and [getNextHourReset()] read the local calendar. *)
Variable nextDayReset nextHourReset : Z -> Z.

(** [canCreateAccount()]: the decision together with the state it leaves
    (an expired cooldown is cleared). *)
Definition canCreateAccount (now : Z) (st : RateLimitState) : Decision * RateLimitState :=
  let cd :=
    match isInCooldown st, cooldownUntil st with
    | true, Some until =>
        let remainingCooldown := until - now in
        if 0 <? remainingCooldown
        then inl (Denied CooldownActive (inject_Z remainingCooldown) until)
        else inr {| accountsCreatedToday := accountsCreatedToday st;
                    accountsCreatedThisHour := accountsCreatedThisHour st;
                    lastAccountCreation := lastAccountCreation st;
                    currentDelay := currentDelay st;
                    isInCooldown := false;
                    cooldownUntil := None;
                    successRate := successRate st;
                    recentAttempts := recentAttempts st |}
    | _, _ => inr st
    end in
  match cd with
  | inl d => (d, st)
  | inr st =>
    if accountsPerDay cfg <=? accountsCreatedToday st then
      let nextDay := nextDayReset now in
      (Denied DailyLimit (inject_Z (nextDay - now)) nextDay, st)
    else if accountsPerHour cfg <=? accountsCreatedThisHour st then
      let nextHour := nextHourReset now in
      (Denied HourlyLimit (inject_Z (nextHour - now)) nextHour, st)
    else
      let timeSinceLastCreation := now - lastAccountCreation st in
      if Qlt_bool (inject_Z timeSinceLastCreation) (currentDelay st) then
        let waitTime := (currentDelay st - inject_Z timeSinceLastCreation)%Q in
        (* [new Date(Date.now() + waitTime)]: a Date holds whole milliseconds *)
        (Denied MinDelayNotElapsed waitTime (now + Qfloor waitTime), st)
      else
        let recentCreations := getRecentCreations now st (5 * 60 * 1000) in
        if Qle_bool (burstLimit cfg) (inject_Z recentCreations) then
          let waitTime := 5 * 60 * 1000 in
          (Denied BurstLimit (inject_Z waitTime) (now + waitTime), st)
        else (Allowed, st)
  end.

End CanCreate.

(** Successive [canCreateAccount()] calls at the instants [ts], each one
    seeing the state the previous one left. *)
Fixpoint canCreateAccountRun (cfg : RateLimitConfig) (nextDayReset nextHourReset : Z -> Z)
    (ts : list Z) (st : RateLimitState) : list Decision :=
  match ts with
  | [] => []
  | t :: ts' =>
    let '(d, st') := canCreateAccount cfg nextDayReset nextHourReset t st in
    d :: canCreateAccountRun cfg nextDayReset nextHourReset ts' st'
  end.

(** [resetLimits()] *)
Definition resetLimits (cfg : RateLimitConfig) (st : RateLimitState) : RateLimitState :=
  {| accountsCreatedToday := 0;
     accountsCreatedThisHour := 0;
     lastAccountCreation := lastAccountCreation st;
     currentDelay := (fst (delayBetweenAccounts cfg) * 1000)%Q;
     isInCooldown := false;
     cooldownUntil := None;
     successRate := 1%Q;
     recentAttempts := [] |}.

(** [updateSuccessRate()] *)
Definition updateSuccessRate (st : RateLimitState) : RateLimitState :=
  let sr :=
    match recentAttempts st with
    | [] => 1%Q
    | l => (inject_Z (Z.of_nat (length (filter snd l))) / inject_Z (Z.of_nat (length l)))%Q
    end in
  {| accountsCreatedToday := accountsCreatedToday st;
     accountsCreatedThisHour := accountsCreatedThisHour st;
     lastAccountCreation := lastAccountCreation st;
     currentDelay := currentDelay st;
     isInCooldown := isInCooldown st;
     cooldownUntil := cooldownUntil st;
     successRate := sr;
     recentAttempts := recentAttempts st |}.

Definition setCurrentDelay (d : Q) (st : RateLimitState) : RateLimitState :=
  {| accountsCreatedToday := accountsCreatedToday st;
     accountsCreatedThisHour := accountsCreatedThisHour st;
     lastAccountCreation := lastAccountCreation st;
     currentDelay := d;
     isInCooldown := isInCooldown st;
     cooldownUntil := cooldownUntil st;
     successRate := successRate st;
     recentAttempts := recentAttempts st |}.

(** [adjustDelayBasedOnSuccessRate()]; [r] is the value of [Math.random()]. *)
Definition adjustDelayBasedOnSuccessRate (cfg : RateLimitConfig) (r : Q)
    (st : RateLimitState) : RateLimitState :=
  let '(minDelay, maxDelay) := delayBetweenAccounts cfg in
  let minDelayMs := (minDelay * 1000)%Q in
  let maxDelayMs := (maxDelay * 1000)%Q in
  let d :=
    if Qle_bool (9 # 10) (successRate st) then
      (minDelayMs + (maxDelayMs - minDelayMs) * (2 # 10))%Q
    else if Qle_bool (7 # 10) (successRate st) then
      (minDelayMs + (maxDelayMs - minDelayMs) * (5 # 10))%Q
    else
      (minDelayMs + (maxDelayMs - minDelayMs) * (8 # 10))%Q in
  let randomFactor := ((8 # 10) + r * (4 # 10))%Q in
  let d := (d * randomFactor)%Q in
  setCurrentDelay (Qjsmax minDelayMs (Qjsmin maxDelayMs d)) st.

(** [getRandomDelay()]; [r] is the value of [Math.random()]. *)
Definition getRandomDelay (cfg : RateLimitConfig) (r : Q) : Q :=
  let '(minDelay, maxDelay) := delayBetweenAccounts cfg in
  let minMs := (minDelay * 1000)%Q in
  let maxMs := (maxDelay * 1000)%Q in
  (minMs + r * (maxMs - minMs))%Q.

(** [triggerCooldown(durationMs?)]: [durationMs || this.config.cooldownPeriodMs]. *)
Definition triggerCooldown (cfg : RateLimitConfig) (durationMs : option Z) (now : Z)
    (st : RateLimitState) : RateLimitState :=
  let cooldownDuration :=
    match durationMs with
    | Some d => if d =? 0 then cooldownPeriodMs cfg else d
    | None => cooldownPeriodMs cfg
    end in
  {| accountsCreatedToday := accountsCreatedToday st;
     accountsCreatedThisHour := accountsCreatedThisHour st;
     lastAccountCreation := lastAccountCreation st;
     currentDelay := currentDelay st;
     isInCooldown := true;
     cooldownUntil := Some (now + cooldownDuration);
     successRate := successRate st;
     recentAttempts := recentAttempts st |}.

(** [checkCooldownTrigger()] *)
Definition checkCooldownTrigger (cfg : RateLimitConfig) (now : Z) (st : RateLimitState)
    : RateLimitState :=
  if Qlt_bool (successRate st) (3 # 10) && (10 <=? Z.of_nat (length (recentAttempts st)))
  then triggerCooldown cfg None now st
  else st.

(** [recordAccountCreation(success)]; [r] is the value of [Math.random()]
    drawn by the delay adjustment. *)
Definition recordAccountCreation (cfg : RateLimitConfig) (now : Z) (r : Q)
    (success : bool) (st : RateLimitState) : RateLimitState :=
  let oneHourAgo := now - 60 * 60 * 1000 in
  let st1 :=
    {| accountsCreatedToday := accountsCreatedToday st + 1;
       accountsCreatedThisHour := accountsCreatedThisHour st + 1;
       lastAccountCreation := now;
       currentDelay := currentDelay st;
       isInCooldown := isInCooldown st;
       cooldownUntil := cooldownUntil st;
       successRate := successRate st;
       recentAttempts :=
         filter (fun a => oneHourAgo <? fst a) (recentAttempts st ++ [(now, success)]) |} in
  let st2 := updateSuccessRate st1 in
  let st3 :=
    if adaptiveRateAdjustment cfg then adjustDelayBasedOnSuccessRate cfg r st2
    else setCurrentDelay (getRandomDelay cfg r) st2 in
  checkCooldownTrigger cfg now st3.

(** [Partial<RateLimitConfig>] and [updateConfig(newConfig)]:
    [{ ...this.config, ...newConfig }]. *)
Record RateLimitConfigPatch := mkPatch {
  p_accountsPerDay : option Z;
  p_accountsPerHour : option Z;
  p_delayBetweenAccounts : option (Q * Q);
  p_burstLimit : option Q;
  p_cooldownPeriodMs : option Z;
  p_adaptiveRateAdjustment : option bool
}.

Definition override {A} (old : A) (o : option A) : A :=
  match o with Some v => v | None => old end.

Definition updateConfig (cfg : RateLimitConfig) (p : RateLimitConfigPatch) : RateLimitConfig :=
  {| accountsPerDay := override (accountsPerDay cfg) (p_accountsPerDay p);
     accountsPerHour := override (accountsPerHour cfg) (p_accountsPerHour p);
     delayBetweenAccounts := override (delayBetweenAccounts cfg) (p_delayBetweenAccounts p);
     burstLimit := override (burstLimit cfg) (p_burstLimit p);
     cooldownPeriodMs := override (cooldownPeriodMs cfg) (p_cooldownPeriodMs p);
     adaptiveRateAdjustment :=
       override (adaptiveRateAdjustment cfg) (p_adaptiveRateAdjustment p) |}.

End RateLimiter.

(** ** Shared types (src/src/types/index.ts) *)

(** [WorkerStatus['status']] *)
Inductive WStatus := W_idle | W_busy | W_failed | W_offline.

Definition WStatus_eqb (a b : WStatus) : bool :=
  match a, b with
  | W_idle, W_idle | W_busy, W_busy | W_failed, W_failed | W_offline, W_offline => true
  | _, _ => false
  end.

(** [WorkerStatus]; task ids (uuids in the source) are modelled as [nat]. *)
Record WorkerStatus := mkWorker {
  w_id : string;
  w_status : WStatus;
  w_currentTask : option nat;
  w_lastHeartbeat : Z;
  w_tasksCompleted : Z;
  w_tasksSuccessful : Z;
  w_tasksFailed : Z
}.

(** A JS [Map<string, V>] as an association list in insertion order. *)
Fixpoint map_get {V} (m : list (string * V)) (k : string) : option V :=
  match m with
  | [] => None
  | (k', v) :: m' => if String.eqb k k' then Some v else map_get m' k
  end.

(** [Map.prototype.set]: an existing key keeps its position. *)
Fixpoint map_set {V} (m : list (string * V)) (k : string) (v : V) : list (string * V) :=
  match m with
  | [] => [(k, v)]
  | (k', v') :: m' => if String.eqb k k' then (k', v) :: m' else (k', v') :: map_set m' k v
  end.

(** ** Worker health monitor *)
Module HealthMonitor.

Record WorkerHealthConfig := mkHConfig {
  heartbeatIntervalMs : Z;
  heartbeatTimeoutMs : Z;
  performanceWindowMs : Z;
  minSuccessRate : Q;
  maxFailureStreak : Z;
  recoveryAttempts : Z;
  recoveryDelayMs : Z
}.

(** One record of [performanceHistory]: timestamp, success, duration. *)
Record HistoryEntry := mkEntry { h_timestamp : Z; h_success : bool; h_duration : Q }.

Inductive HStatus := H_healthy | H_degraded | H_unhealthy | H_recovering.

Record WorkerPerformanceMetrics := mkMetrics {
  m_workerId : string;
  m_successRate : Q;
  m_averageTaskTime : Q;
  m_failureStreak : Z;
  m_lastFailureTime : option Z;
  m_healthScore : Q;
  m_status : HStatus
}.

(** The loop [for (i = length - 1; i >= 0; i--) if (!success) streak++ else break],
    run on the reversed history. *)
Fixpoint leadingFailures (l : list HistoryEntry) : Z :=
  match l with
  | [] => 0
  | h :: l' => if h_success h then 0 else leadingFailures l' + 1
  end.

(** [calculatePerformanceMetrics(workerId)] over the monitor's maps
    [workers], [performanceHistory] and [recoveryAttempts]. *)
Definition calculatePerformanceMetrics (cfg : WorkerHealthConfig) (now : Z)
    (workers : list (string * WorkerStatus))
    (performanceHistory : list (string * list HistoryEntry))
    (recoveryAttemptsMap : list (string * Z))
    (workerId : string) : option WorkerPerformanceMetrics :=
  match map_get workers workerId, map_get performanceHistory workerId with
  | Some worker, Some history =>
    let recentHistory :=
      filter (fun h => now - performanceWindowMs cfg <? h_timestamp h) history in
    let totalTasks := Z.of_nat (length recentHistory) in
    let successfulTasks := Z.of_nat (length (filter h_success recentHistory)) in
    let successRate :=
      if 0 <? totalTasks then (inject_Z successfulTasks / inject_Z totalTasks)%Q else 1%Q in
    let totalDuration := fold_left (fun sum h => (sum + h_duration h)%Q) recentHistory 0%Q in
    let averageTaskTime :=
      if 0 <? totalTasks then (totalDuration / inject_Z totalTasks)%Q else 0%Q in
    let failureStreak := leadingFailures (rev recentHistory) in
    let healthScore := 100%Q in
    let healthScore :=
      if Qlt_bool successRate (minSuccessRate cfg)
      then (healthScore - (minSuccessRate cfg - successRate) * 100)%Q else healthScore in
    let healthScore :=
      if 0 <? failureStreak
      then (healthScore - inject_Z (Z.min (failureStreak * 10) 50))%Q else healthScore in
    let timeSinceHeartbeat := now - w_lastHeartbeat worker in
    let healthScore :=
      if heartbeatTimeoutMs cfg <? timeSinceHeartbeat
      then (healthScore - 30)%Q else healthScore in
    let healthScore := Qjsmax 0 (Qjsmin 100 healthScore) in
    (* [this.recoveryAttempts.get(workerId) || 0 > 0] parses as
       [get(workerId) || (0 > 0)]: truthy when the entry is a non-zero number *)
    let recovering :=
      match map_get recoveryAttemptsMap workerId with
      | Some n => negb (n =? 0)
      | None => false
      end in
    let status :=
      if Qle_bool 80 healthScore then H_healthy
      else if Qle_bool 60 healthScore then H_degraded
      else if recovering then H_recovering
      else H_unhealthy in
    Some {| m_workerId := workerId;
            m_successRate := successRate;
            m_averageTaskTime := averageTaskTime;
            m_failureStreak := failureStreak;
            m_lastFailureTime :=
              option_map h_timestamp (find (fun h => negb (h_success h)) recentHistory);
            m_healthScore := healthScore;
            m_status := status |}
  | _, _ => None
  end.

End HealthMonitor.

(** ** Task orchestrator *)
Module Orchestrator.

Record TaskOrchestratorConfig := mkOConfig {
  maxConcurrentTasks : Z;
  taskTimeoutMs : Z;
  workerHealthCheckIntervalMs : Z;
  retryDelayMs : Z;
  maxRetryAttempts : Z
}.

(** [CreationTask['status']] *)
Inductive TStatus := T_queued | T_inProgress | T_completed | T_failed.

(** [CreationTask], keeping the fields the scheduler reads or writes
    (the batch id, payload and dates are not modelled). *)
Record CreationTask := mkTask {
  t_id : nat;
  t_assignedWorker : option string;
  t_attempts : Z;
  t_maxAttempts : Z;
  t_status : TStatus;
  t_errorMessage : option string
}.

(** The orchestrator's state.  Task and worker objects are shared by
    reference in the source; they live in the heaps [tasks] (indexed by the
    task id, ids being handed out in order as [uuidv4()] stand-ins) and
    [workerObjs] (indexed by an object reference).
    - [pending], [inProgress] (the keys of the [Map], in insertion order),
      [completed], [failed]: the [TaskQueue];
    - [workers]: the [Map<string, WorkerStatus>], worker id to reference;
    - [timers]: tasks whose retry [setTimeout(() => pending.push(task))]
      has not fired yet;
    - [inflight]: executions started by [distributeTask] whose
      [executeTask] has not returned yet (task id, worker reference). *)
Record OrchState := mkOState {
  tasks : list CreationTask;
  pending : list nat;
  inProgress : list nat;
  completed : list nat;
  failed : list nat;
  workerObjs : list WorkerStatus;
  workers : list (string * nat);
  timers : list nat;
  inflight : list (nat * nat);
  isPaused : bool
}.

Definition initialOrch : OrchState :=
  {| tasks := []; pending := []; inProgress := []; completed := []; failed := [];
     workerObjs := []; workers := []; timers := []; inflight := []; isPaused := false |}.

Definition dummyTask : CreationTask := mkTask 0 None 0 0 T_queued None.
Definition dummyWorker : WorkerStatus := mkWorker EmptyString W_offline None 0 0 0 0.

Definition getTask (st : OrchState) (tid : nat) : CreationTask := nth tid (tasks st) dummyTask.
Definition getWorker (st : OrchState) (wref : nat) : WorkerStatus :=
  nth wref (workerObjs st) dummyWorker.

(** Update of a list at an index (no change out of range). *)
Fixpoint list_update {A} (l : list A) (n : nat) (f : A -> A) : list A :=
  match l, n with
  | [], _ => []
  | x :: l', O => f x :: l'
  | x :: l', S n' => x :: list_update l' n' f
  end.

(** [arr.splice(arr.findIndex(t => t.id === id), 1)] when found. *)
Fixpoint remove_first (x : nat) (l : list nat) : list nat :=
  match l with
  | [] => []
  | y :: l' => if Nat.eqb x y then l' else y :: remove_first x l'
  end.

(** [Map.prototype.set] / [delete] on the key list of [inProgress]. *)
Definition ip_set (l : list nat) (x : nat) : list nat :=
  if existsb (Nat.eqb x) l then l else l ++ [x].
Definition ip_delete (l : list nat) (x : nat) : list nat :=
  filter (fun y => negb (Nat.eqb x y)) l.

Definition with_tasks (st : OrchState) (ts : list CreationTask) : OrchState :=
  {| tasks := ts; pending := pending st; inProgress := inProgress st;
     completed := completed st; failed := failed st; workerObjs := workerObjs st;
     workers := workers st; timers := timers st; inflight := inflight st;
     isPaused := isPaused st |}.

Definition updTask (st : OrchState) (tid : nat) (f : CreationTask -> CreationTask) : OrchState :=
  with_tasks st (list_update (tasks st) tid f).

Definition with_queues (st : OrchState) (p ip c f tm : list nat) : OrchState :=
  {| tasks := tasks st; pending := p; inProgress := ip; completed := c; failed := f;
     workerObjs := workerObjs st; workers := workers st; timers := tm;
     inflight := inflight st; isPaused := isPaused st |}.

Definition with_workers (st : OrchState) (objs : list WorkerStatus)
    (ws : list (string * nat)) : OrchState :=
  {| tasks := tasks st; pending := pending st; inProgress := inProgress st;
     completed := completed st; failed := failed st; workerObjs := objs;
     workers := ws; timers := timers st; inflight := inflight st;
     isPaused := isPaused st |}.

Definition with_inflight (st : OrchState) (fl : list (nat * nat)) : OrchState :=
  {| tasks := tasks st; pending := pending st; inProgress := inProgress st;
     completed := completed st; failed := failed st; workerObjs := workerObjs st;
     workers := workers st; timers := timers st; inflight := fl;
     isPaused := isPaused st |}.

(** Mutate the worker object [wref], then [this.workers.set(worker.id, worker)]. *)
Definition updWorkerAndSet (st : OrchState) (wref : nat)
    (f : WorkerStatus -> WorkerStatus) : OrchState :=
  let objs := list_update (workerObjs st) wref f in
  with_workers st objs (map_set (workers st) (w_id (nth wref objs dummyWorker)) wref).

Definition setTaskFields (a : option string) (s : TStatus) (t : CreationTask) : CreationTask :=
  {| t_id := t_id t; t_assignedWorker := a; t_attempts := t_attempts t;
     t_maxAttempts := t_maxAttempts t; t_status := s; t_errorMessage := t_errorMessage t |}.

Definition setWorkerTask (s : WStatus) (c : option nat) (w : WorkerStatus) : WorkerStatus :=
  {| w_id := w_id w; w_status := s; w_currentTask := c; w_lastHeartbeat := w_lastHeartbeat w;
     w_tasksCompleted := w_tasksCompleted w; w_tasksSuccessful := w_tasksSuccessful w;
     w_tasksFailed := w_tasksFailed w |}.

(** *** Operations.  The calls into the rate limiter and the health monitor
    ([recordAccountCreation], [getNextAvailableSlot], [recordTaskCompletion],
    [updateWorkerStatus]) touch only their own state and are left out here;
    the delay they compute for a retry only decides when the timer fires.
    Events and logging are not modelled. *)

(** [scheduleAccountCreation(batchSize)]: the loop body pushes each new task. *)
Fixpoint scheduleLoop (cfg : TaskOrchestratorConfig) (n : nat) (st : OrchState)
    (ids : list nat) : list nat * OrchState :=
  match n with
  | O => (ids, st)
  | S n' =>
    let id := length (tasks st) in
    let task := {| t_id := id; t_assignedWorker := None; t_attempts := 0;
                   t_maxAttempts := maxRetryAttempts cfg; t_status := T_queued;
                   t_errorMessage := None |} in
    let st1 := with_tasks st (tasks st ++ [task]) in
    let st2 := with_queues st1 (pending st1 ++ [id]) (inProgress st1) (completed st1)
                 (failed st1) (timers st1) in
    scheduleLoop cfg n' st2 (ids ++ [id])
  end.

Definition scheduleAccountCreation (cfg : TaskOrchestratorConfig) (batchSize : nat)
    (st : OrchState) : list nat * OrchState :=
  scheduleLoop cfg batchSize st [].

(** [getAvailableWorkers()] *)
Definition getAvailableWorkers (st : OrchState) : list nat :=
  filter (fun wref => WStatus_eqb (w_status (getWorker st wref)) W_idle) (map snd (workers st)).

(** [selectOptimalWorker(availableWorkers)]: [reduce] without initial value. *)
Definition selectOptimalWorker (st : OrchState) (available : list nat) : option nat :=
  match available with
  | [] => None
  | first :: rest =>
    Some (fold_left (fun best cur =>
            if w_tasksCompleted (getWorker st cur) <? w_tasksCompleted (getWorker st best)
            then cur else best) rest first)
  end.

(** [distributeTask(task, availableWorkers)] up to the [await] of
    [executeTask]; the started execution is recorded in [inflight]. *)
Definition distributeTask (st : OrchState) (tid : nat) (available : list nat) : OrchState :=
  match selectOptimalWorker st available with
  | None => st
  | Some wref =>
    let st1 := updTask st tid (setTaskFields (Some (w_id (getWorker st wref))) T_inProgress) in
    let st2 := with_queues st1 (remove_first tid (pending st1)) (ip_set (inProgress st1) tid)
                 (completed st1) (failed st1) (timers st1) in
    let st3 := updWorkerAndSet st2 wref (setWorkerTask W_busy (Some tid)) in
    with_inflight st3 (inflight st3 ++ [(tid, wref)])
  end.

(** [processPendingTasks()]; [allowed] is the answer of
    [rateLimiter.canCreateAccount()]. *)
Fixpoint processLoop (n : nat) (st : OrchState) (available : list nat) : OrchState :=
  match n with
  | O => st
  | S n' =>
    match pending st with
    | task :: _ => processLoop n' (distributeTask st task available) available
    | [] => processLoop n' st available
    end
  end.

Definition processPendingTasks (cfg : TaskOrchestratorConfig) (allowed : bool)
    (st : OrchState) : OrchState :=
  if isPaused st || (length (pending st) =? 0)%nat then st
  else if negb allowed then st
  else
    let availableWorkers := getAvailableWorkers st in
    match availableWorkers with
    | [] => st
    | _ =>
      let tasksToProcess :=
        Z.min (Z.min (Z.min (Z.of_nat (length (pending st))) (Z.of_nat (length availableWorkers)))
                     (maxConcurrentTasks cfg - Z.of_nat (length (inProgress st)))) 1 in
      processLoop (Z.to_nat tasksToProcess) st availableWorkers
    end.

(** [completeTask(task, worker)] *)
Definition completeTask (now : Z) (st : OrchState) (tid wref : nat) : OrchState :=
  let st1 := updTask st tid (fun t => setTaskFields (t_assignedWorker t) T_completed t) in
  let st2 := with_queues st1 (pending st1) (ip_delete (inProgress st1) tid)
               (completed st1 ++ [tid]) (failed st1) (timers st1) in
  updWorkerAndSet st2 wref (fun w =>
    {| w_id := w_id w; w_status := W_idle; w_currentTask := None; w_lastHeartbeat := now;
       w_tasksCompleted := w_tasksCompleted w + 1;
       w_tasksSuccessful := w_tasksSuccessful w + 1;
       w_tasksFailed := w_tasksFailed w |}).

(** [failTask(task, worker, error)] up to the retry decision:
    [task.attempts++], [task.errorMessage], and the worker set back to idle.
    [wref = None] is the [{} as WorkerStatus] placeholder of
    [handleTaskTimeout]; the registry entry the source then writes under the
    key [undefined] is not modelled. *)
Definition failTaskRecord (now : Z) (st : OrchState) (tid : nat) (wref : option nat)
    (msg : string) : OrchState :=
  let st1 := updTask st tid (fun t =>
    {| t_id := t_id t; t_assignedWorker := t_assignedWorker t;
       t_attempts := t_attempts t + 1; t_maxAttempts := t_maxAttempts t;
       t_status := t_status t; t_errorMessage := Some msg |}) in
  match wref with
  | Some r => updWorkerAndSet st1 r (fun w =>
      {| w_id := w_id w; w_status := W_idle; w_currentTask := None; w_lastHeartbeat := now;
         w_tasksCompleted := w_tasksCompleted w;
         w_tasksSuccessful := w_tasksSuccessful w;
         w_tasksFailed := w_tasksFailed w + 1 |})
  | None => st1
  end.

(** [failTask(task, worker, error)]: retry after a timer while
    [attempts < maxAttempts], otherwise move to [failed]. *)
Definition failTask (now : Z) (st : OrchState) (tid : nat) (wref : option nat)
    (msg : string) : OrchState :=
  let st2 := failTaskRecord now st tid wref msg in
  let task := getTask st2 tid in
  if t_attempts task <? t_maxAttempts task then
    let st3 := updTask st2 tid (setTaskFields None T_queued) in
    with_queues st3 (pending st3) (ip_delete (inProgress st3) tid) (completed st3)
      (failed st3) (timers st3 ++ [tid])
  else
    let st3 := updTask st2 tid (fun t => setTaskFields (t_assignedWorker t) T_failed t) in
    with_queues st3 (pending st3) (ip_delete (inProgress st3) tid) (completed st3)
      (failed st3 ++ [tid]) (timers st3).

(** The retry timer of [tid] fires: [this.taskQueue.pending.push(task)]. *)
Definition fireTimer (st : OrchState) (tid : nat) : OrchState :=
  with_queues st (pending st ++ [tid]) (inProgress st) (completed st) (failed st)
    (remove_first tid (timers st)).

(** The execution [(tid, wref)] started by [distributeTask] returns:
    [executeTask] calls [completeTask] or, on a thrown error, [failTask]. *)
Definition finishExecution (now : Z) (st : OrchState) (tid wref : nat) (success : bool)
    : OrchState :=
  let fl := (fix drop (l : list (nat * nat)) :=
               match l with
               | [] => []
               | (a, b) :: l' => if Nat.eqb a tid && Nat.eqb b wref then l' else (a, b) :: drop l'
               end) (inflight st) in
  let st1 := with_inflight st fl in
  if success then completeTask now st1 tid wref
  else failTask now st1 tid (Some wref) "Simulated task failure".

(** [reassignTask(task)] *)
Definition reassignTask (st : OrchState) (tid : nat) : OrchState :=
  let st1 := updTask st tid (setTaskFields None T_queued) in
  with_queues st1 (tid :: pending st1) (ip_delete (inProgress st1) tid) (completed st1)
    (failed st1) (timers st1).

(** [attemptWorkerRecovery(workerId)] *)
Definition attemptWorkerRecovery (st : OrchState) (workerId : string) : OrchState :=
  match map_get (workers st) workerId with
  | Some wref => updWorkerAndSet st wref (fun w =>
      {| w_id := w_id w; w_status := W_offline; w_currentTask := w_currentTask w;
         w_lastHeartbeat := w_lastHeartbeat w; w_tasksCompleted := w_tasksCompleted w;
         w_tasksSuccessful := w_tasksSuccessful w; w_tasksFailed := w_tasksFailed w |})
  | None => st
  end.

Definition assignedTo (workerId : string) (t : CreationTask) : bool :=
  match t_assignedWorker t with
  | Some w => String.eqb w workerId
  | None => false
  end.

(** [handleWorkerFailure(workerId)] *)
Definition handleWorkerFailure (now : Z) (st : OrchState) (workerId : string) : OrchState :=
  match map_get (workers st) workerId with
  | None => st
  | Some wref =>
    let st1 := updWorkerAndSet st wref (fun w =>
      {| w_id := w_id w; w_status := W_failed; w_currentTask := w_currentTask w;
         w_lastHeartbeat := now; w_tasksCompleted := w_tasksCompleted w;
         w_tasksSuccessful := w_tasksSuccessful w; w_tasksFailed := w_tasksFailed w |}) in
    let tasksToReassign := filter (fun tid => assignedTo workerId (getTask st1 tid))
                             (inProgress st1) in
    let st2 := fold_left reassignTask tasksToReassign st1 in
    attemptWorkerRecovery st2 workerId
  end.

(** [handleTaskTimeout(task)] *)
Definition handleTaskTimeout (now : Z) (st : OrchState) (tid : nat) : OrchState :=
  let worker :=
    match t_assignedWorker (getTask st tid) with
    | Some id => map_get (workers st) id
    | None => None
    end in
  let st1 :=
    match worker with
    | Some wref => handleWorkerFailure now st (w_id (getWorker st wref))
    | None => st
    end in
  failTask now st1 tid worker "Task timeout".

(** [registerWorker(workerId)] *)
Definition registerWorker (now : Z) (st : OrchState) (workerId : string) : OrchState :=
  let wref := length (workerObjs st) in
  let w := {| w_id := workerId; w_status := W_idle; w_currentTask := None;
              w_lastHeartbeat := now; w_tasksCompleted := 0; w_tasksSuccessful := 0;
              w_tasksFailed := 0 |} in
  with_workers st (workerObjs st ++ [w]) (map_set (workers st) workerId wref).

(** [unregisterWorker(workerId)] *)
Definition unregisterWorker (st : OrchState) (workerId : string) : OrchState :=
  with_workers st (workerObjs st)
    (filter (fun kv => negb (String.eqb (fst kv) workerId)) (workers st)).

Definition setPaused (st : OrchState) (b : bool) : OrchState :=
  {| tasks := tasks st; pending := pending st; inProgress := inProgress st;
     completed := completed st; failed := failed st; workerObjs := workerObjs st;
     workers := workers st; timers := timers st; inflight := inflight st; isPaused := b |}.

(** [getSystemStatus()] *)
Record SystemStatus := mkStatus {
  activeWorkers : nat;
  queuedTasks : nat;
  completedTasks : nat;
  failedTasks : nat
}.

Definition getSystemStatus (st : OrchState) : SystemStatus :=
  {| activeWorkers :=
       length (filter (fun wref =>
                 let s := w_status (getWorker st wref) in
                 WStatus_eqb s W_idle || WStatus_eqb s W_busy) (map snd (workers st)));
     queuedTasks := length (pending st) + length (inProgress st);
     completedTasks := length (completed st);
     failedTasks := length (failed st) |}.

End Orchestrator.

(** ** Readings of the specification's words, compared with the embedding *)
Module SpecWords.
Import RateLimiter.

(** Step 1 of the gate: an expired cooldown is cleared. *)
Definition clearExpiredCooldown (now : Z) (st : RateLimitState) : RateLimitState :=
  match isInCooldown st, cooldownUntil st with
  | true, Some u =>
    if u <=? now then
      {| accountsCreatedToday := accountsCreatedToday st;
         accountsCreatedThisHour := accountsCreatedThisHour st;
         lastAccountCreation := lastAccountCreation st;
         currentDelay := currentDelay st;
         isInCooldown := false; cooldownUntil := None;
         successRate := successRate st; recentAttempts := recentAttempts st |}
    else st
  | _, _ => st
  end.

(** First match wins among (condition, denial) pairs; no match allows. *)
Fixpoint firstMatch (l : list (bool * Decision)) : Decision :=
  match l with
  | [] => Allowed
  | (c, d) :: l' => if c then d else firstMatch l'
  end.

(** The five gate conditions in the order the specification lists them,
    each with its wait time and next-available instant. *)
Definition gateConditions (cfg : RateLimitConfig) (nextDayReset nextHourReset : Z -> Z)
    (now : Z) (st : RateLimitState) : list (bool * Decision) :=
  let st' := clearExpiredCooldown now st in
  let since := now - lastAccountCreation st' in
  let wait := (currentDelay st' - inject_Z since)%Q in
  [ (match isInCooldown st, cooldownUntil st with
     | true, Some u => now <? u
     | _, _ => false
     end,
     match cooldownUntil st with
     | Some u => Denied CooldownActive (inject_Z (u - now)) u
     | None => Allowed
     end);
    (accountsPerDay cfg <=? accountsCreatedToday st',
     Denied DailyLimit (inject_Z (nextDayReset now - now)) (nextDayReset now));
    (accountsPerHour cfg <=? accountsCreatedThisHour st',
     Denied HourlyLimit (inject_Z (nextHourReset now - now)) (nextHourReset now));
    (Qlt_bool (inject_Z since) (currentDelay st'),
     Denied MinDelayNotElapsed wait (now + Qfloor wait));
    (Qle_bool (burstLimit cfg) (inject_Z (getRecentCreations now st' (5 * 60 * 1000))),
     Denied BurstLimit (inject_Z (5 * 60 * 1000)) (now + 5 * 60 * 1000)) ].

Definition gateSpec (cfg : RateLimitConfig) (nextDayReset nextHourReset : Z -> Z)
    (now : Z) (st : RateLimitState) : Decision * RateLimitState :=
  (firstMatch (gateConditions cfg nextDayReset nextHourReset now st),
   clearExpiredCooldown now st).

(** [recordOutcome]: the delay before jitter, [minDelay + f * (maxDelay - minDelay)]
    with [f] = 0.2, 0.5 or 0.8 by success rate (delays in milliseconds). *)
Definition delayFactor (sr : Q) : Q :=
  if Qle_bool (9 # 10) sr then 2 # 10
  else if Qle_bool (7 # 10) sr then 5 # 10
  else 8 # 10.

Definition targetDelay (cfg : RateLimitConfig) (sr : Q) : Q :=
  let minMs := (fst (delayBetweenAccounts cfg) * 1000)%Q in
  let maxMs := (snd (delayBetweenAccounts cfg) * 1000)%Q in
  (minMs + delayFactor sr * (maxMs - minMs))%Q.

(** Clamped to [[lo, hi]]. *)
Definition clampQ (lo hi x : Q) : Q := Qjsmax lo (Qjsmin hi x).

(** Successes over total in a window, 1 for an empty window. *)
Definition windowRate {A} (success : A -> bool) (l : list A) : Q :=
  match l with
  | [] => 1%Q
  | _ => (inject_Z (Z.of_nat (length (filter success l))) / inject_Z (Z.of_nat (length l)))%Q
  end.

(** Consecutive failures at the tail of the window, read left to right. *)
Definition tailFailures (l : list HealthMonitor.HistoryEntry) : Z :=
  fold_left (fun acc h => if HealthMonitor.h_success h then 0 else acc + 1) l 0.

(** The health score: 100, minus the success-rate shortfall times 100,
    minus [min(streak * 10, 50)] for a positive streak, minus 30 for a stale
    heartbeat, clamped to [[0, 100]]. *)
Definition healthScoreSpec (cfg : HealthMonitor.WorkerHealthConfig) (sr : Q) (streak : Z)
    (heartbeatAge : Z) : Q :=
  let minSr := HealthMonitor.minSuccessRate cfg in
  let d1 := if Qlt_bool sr minSr then ((minSr - sr) * 100)%Q else 0%Q in
  let d2 := if 0 <? streak then inject_Z (Z.min (streak * 10) 50) else 0%Q in
  let d3 := if HealthMonitor.heartbeatTimeoutMs cfg <? heartbeatAge then 30%Q else 0%Q in
  clampQ 0 100 (100 - d1 - d2 - d3)%Q.

End SpecWords.

(** ** Runs of the orchestrator *)
Module OrchRuns.
Import Orchestrator.

Section Runs.
Variable cfg : TaskOrchestratorConfig.

(** The events the timers and the executor deliver.  [st_timeout] is
    [monitorProgress] finding one in-progress task past [taskTimeoutMs];
    [st_finish] is an execution returning, whatever became of its task in
    the meantime. *)
Inductive Step : OrchState -> OrchState -> Prop :=
| st_schedule st n : Step st (snd (scheduleAccountCreation cfg n st))
| st_tick st allowed : Step st (processPendingTasks cfg allowed st)
| st_finish st now tid wref success :
    In (tid, wref) (inflight st) -> Step st (finishExecution now st tid wref success)
| st_fire st tid : In tid (timers st) -> Step st (fireTimer st tid)
| st_timeout st now tid : In tid (inProgress st) -> Step st (handleTaskTimeout now st tid)
| st_workerFailure st now workerId : Step st (handleWorkerFailure now st workerId)
| st_register st now workerId : Step st (registerWorker now st workerId)
| st_unregister st workerId : Step st (unregisterWorker st workerId)
| st_pause st b : Step st (setPaused st b).

Inductive Reachable : OrchState -> Prop :=
| r_init : Reachable initialOrch
| r_step st st' : Reachable st -> Step st st' -> Reachable st'.

(** The same events without the timeout path, and with executions whose
    task is still in progress. *)
Inductive ExecStep : OrchState -> OrchState -> Prop :=
| es_schedule st n : ExecStep st (snd (scheduleAccountCreation cfg n st))
| es_tick st allowed : ExecStep st (processPendingTasks cfg allowed st)
| es_finish st now tid wref success :
    In (tid, wref) (inflight st) -> In tid (inProgress st) ->
    ExecStep st (finishExecution now st tid wref success)
| es_fire st tid : In tid (timers st) -> ExecStep st (fireTimer st tid)
| es_workerFailure st now workerId : ExecStep st (handleWorkerFailure now st workerId)
| es_register st now workerId : ExecStep st (registerWorker now st workerId)
| es_unregister st workerId : ExecStep st (unregisterWorker st workerId)
| es_pause st b : ExecStep st (setPaused st b).

Inductive ExecReachable : OrchState -> Prop :=
| er_init : ExecReachable initialOrch
| er_step st st' : ExecReachable st -> ExecStep st st' -> ExecReachable st'.

End Runs.

(** [|pending| + |inProgress| + |completed| + |failed|] *)
Definition fourCount (st : OrchState) : nat :=
  length (pending st) + length (inProgress st) + length (completed st) + length (failed st).

(** The four collections and the retry timers not yet fired. *)
Definition heldTasks (st : OrchState) : list nat :=
  pending st ++ inProgress st ++ completed st ++ failed st ++ timers st.

(** Tasks ever created by [scheduleAccountCreation]: ids [0 .. n-1]. *)
Definition createdTasks (st : OrchState) : list nat := seq 0 (length (tasks st)).

(** Registered workers (entries of the [workers] map) with a given status. *)
Definition workersWithStatus (st : OrchState) (s : WStatus) : nat :=
  length (filter (fun wref => WStatus_eqb (w_status (getWorker st wref)) s)
                 (map snd (workers st))).

(** Occurrences of an id in a list of ids. *)
Definition cnt (l : list nat) (y : nat) : nat := count_occ Nat.eq_dec l y.

(** One if the ids agree. *)
Definition ind (x y : nat) : nat := if Nat.eq_dec x y then 1 else 0.

(** The held tasks and the task heap size are unchanged, occurrence by occurrence. *)
Definition SameHeld (st st' : OrchState) : Prop :=
  length (tasks st') = length (tasks st) /\ forall y, cnt (heldTasks st') y = cnt (heldTasks st) y.

(** Each id is held at most once. *)
Definition AtMostOnce (st : OrchState) : Prop := forall y, (cnt (heldTasks st) y <= 1)%nat.

(** Every task ever created is held exactly once. *)
Definition Inv (st : OrchState) : Prop :=
  forall y, cnt (heldTasks st) y = cnt (createdTasks st) y.

End OrchRuns.

(** ** Concrete rate-limiter states *)
Module RLScenarios.
Import RateLimiter.

(** 100 per day, 20 per hour, 1 to 2 seconds between accounts. *)
Definition cfgDefault : RateLimitConfig := fromSystemConfig 100 20 (1, 2)%Q.

(** The same after [updateConfig({ adaptiveRateAdjustment: false })]. *)
Definition cfgNoAdaptive : RateLimitConfig :=
  updateConfig cfgDefault (mkPatch None None None None None (Some false)).

(** A success recorded at [t = 0] with [Math.random() = 0.5] and adaptation off. *)
Definition stNoAdaptive : RateLimitState :=
  recordAccountCreation cfgNoAdaptive 0 (1 # 2) true (initialState cfgNoAdaptive).

(** Nine failures one second before [t = 4000000]. *)
Definition stNineFailures : RateLimitState :=
  {| accountsCreatedToday := 9; accountsCreatedThisHour := 9;
     lastAccountCreation := 3999000; currentDelay := 1800%Q;
     isInCooldown := false; cooldownUntil := None; successRate := 0%Q;
     recentAttempts := repeat (3999000, false) 9 |}.

End RLScenarios.

(** ** Concrete runs (the test configuration of the orchestrator's unit tests) *)
Module Scenarios.
Import Orchestrator.

Definition cfgTest : TaskOrchestratorConfig := mkOConfig 5 30000 10000 5000 3.
Definition cfgOneAttempt : TaskOrchestratorConfig := mkOConfig 5 30000 10000 5000 1.

(** Worker "w1" registered, one task scheduled and dispatched to it. *)
Definition a0 : OrchState := registerWorker 0 initialOrch "w1".
Definition a1 : OrchState := snd (scheduleAccountCreation cfgTest 1 a0).
Definition a2 : OrchState := processPendingTasks cfgTest true a1.
(** The execution fails; the retry waits on its timer. *)
Definition a3 : OrchState := finishExecution 20000 a2 0 0 false.
(** Instead, "w1" is declared failed while the task runs. *)
Definition c3 : OrchState := handleWorkerFailure 20000 a2 "w1".

(** With [maxRetryAttempts = 1]: the task times out, is dispatched again
    from [pending], and that execution fails. *)
Definition b1 : OrchState := snd (scheduleAccountCreation cfgOneAttempt 1 a0).
Definition b2 : OrchState := processPendingTasks cfgOneAttempt true b1.
Definition b3 : OrchState := handleTaskTimeout 40000 b2 0.
Definition b4 : OrchState := processPendingTasks cfgOneAttempt true b3.
Definition b5 : OrchState := finishExecution 50000 b4 0 0 false.

(** Two tasks scheduled; the first is dispatched, fails, and its retry
    timer fires while the second is still pending. *)
Definition d1 : OrchState := snd (scheduleAccountCreation cfgTest 2 a0).
Definition d2 : OrchState := processPendingTasks cfgTest true d1.
Definition d3 : OrchState := finishExecution 20000 d2 0 0 false.
Definition d4 : OrchState := fireTimer d3 0.

End Scenarios.

(** ** More of the rate limiter *)
Module RateLimiterOps.
Import RateLimiter.

(** [getNextAvailableSlot()]: [new Date()] when allowed, otherwise the
    denial's [nextAvailableSlot] (every denial of [canCreateAccount] carries
    one, so the fallback [new Date(Date.now() + 60000)] is not reached). *)
Definition getNextAvailableSlot (cfg : RateLimitConfig) (nextDayReset nextHourReset : Z -> Z)
    (now : Z) (st : RateLimitState) : Z * RateLimitState :=
  let '(d, st') := canCreateAccount cfg nextDayReset nextHourReset now st in
  match d with
  | Allowed => (now, st')
  | Denied _ _ slot => (slot, st')
  end.

(** The state with [isInCooldown = false] and [cooldownUntil = undefined]. *)
Definition cooldownCleared (st : RateLimitState) : RateLimitState :=
  {| accountsCreatedToday := accountsCreatedToday st;
     accountsCreatedThisHour := accountsCreatedThisHour st;
     lastAccountCreation := lastAccountCreation st;
     currentDelay := currentDelay st;
     isInCooldown := false;
     cooldownUntil := None;
     successRate := successRate st;
     recentAttempts := recentAttempts st |}.

(** The duration [triggerCooldown(durationMs)] uses:
    [durationMs || this.config.cooldownPeriodMs]. *)
Definition cooldownDuration (cfg : RateLimitConfig) (durationMs : option Z) : Z :=
  match durationMs with
  | Some d => if d =? 0 then cooldownPeriodMs cfg else d
  | None => cooldownPeriodMs cfg
  end.

End RateLimiterOps.

(** ** The rest of the worker health monitor *)
Module HealthMonitorOps.
Import HealthMonitor.

(** The monitor's three maps.  The monitor is taken on its own here: its
    worker records are values, not objects shared with a caller. *)
Record HMState := mkHM {
  hm_workers : list (string * WorkerStatus);
  hm_history : list (string * list HistoryEntry);
  hm_recovery : list (string * Z)
}.

Definition initialHM : HMState := mkHM [] [] [].

(** [Map.prototype.delete] *)
Definition map_delete {V} (m : list (string * V)) (k : string) : list (string * V) :=
  filter (fun kv => negb (String.eqb (fst kv) k)) m.

(** [registerWorker(worker)] *)
Definition registerWorker (st : HMState) (worker : WorkerStatus) : HMState :=
  mkHM (map_set (hm_workers st) (w_id worker) worker)
       (map_set (hm_history st) (w_id worker) [])
       (map_set (hm_recovery st) (w_id worker) 0).

(** [unregisterWorker(workerId)] *)
Definition unregisterWorker (st : HMState) (workerId : string) : HMState :=
  mkHM (map_delete (hm_workers st) workerId)
       (map_delete (hm_history st) workerId)
       (map_delete (hm_recovery st) workerId).

(** [Partial<WorkerStatus>]: [Some None] on [currentTask] is a property
    present with the value [undefined]. *)
Record WorkerStatusPatch := mkWPatch {
  wp_id : option string;
  wp_status : option WStatus;
  wp_currentTask : option (option nat);
  wp_lastHeartbeat : option Z;
  wp_tasksCompleted : option Z;
  wp_tasksSuccessful : option Z;
  wp_tasksFailed : option Z
}.

Definition patchOr {A} (old : A) (o : option A) : A :=
  match o with Some v => v | None => old end.

(** [{ ...worker, ...status }] *)
Definition applyPatch (w : WorkerStatus) (p : WorkerStatusPatch) : WorkerStatus :=
  {| w_id := patchOr (w_id w) (wp_id p);
     w_status := patchOr (w_status w) (wp_status p);
     w_currentTask := patchOr (w_currentTask w) (wp_currentTask p);
     w_lastHeartbeat := patchOr (w_lastHeartbeat w) (wp_lastHeartbeat p);
     w_tasksCompleted := patchOr (w_tasksCompleted w) (wp_tasksCompleted p);
     w_tasksSuccessful := patchOr (w_tasksSuccessful w) (wp_tasksSuccessful p);
     w_tasksFailed := patchOr (w_tasksFailed w) (wp_tasksFailed p) |}.

(** [updateWorkerStatus(workerId, status)] *)
Definition updateWorkerStatus (st : HMState) (workerId : string) (p : WorkerStatusPatch)
    : HMState :=
  match map_get (hm_workers st) workerId with
  | None => st
  | Some worker =>
    mkHM (map_set (hm_workers st) workerId (applyPatch worker p))
         (hm_history st) (hm_recovery st)
  end.

(** [recordTaskCompletion(workerId, success, duration)].  The
    [failureStreak] / [lastFailureTime] writes go to the fresh object
    [calculatePerformanceMetrics] returns and are lost, so they have no
    effect on the state. *)
Definition recordTaskCompletion (cfg : WorkerHealthConfig) (now : Z) (st : HMState)
    (workerId : string) (success : bool) (duration : Q) : HMState :=
  match map_get (hm_history st) workerId with
  | None => st
  | Some history =>
    let history := history ++ [mkEntry now success duration] in
    let cutoff := now - performanceWindowMs cfg in
    let filteredHistory := filter (fun h => cutoff <? h_timestamp h) history in
    let st1 := mkHM (hm_workers st) (map_set (hm_history st) workerId filteredHistory)
                    (hm_recovery st) in
    match map_get (hm_workers st1) workerId with
    | None => st1
    | Some worker =>
      let worker' :=
        {| w_id := w_id worker; w_status := w_status worker;
           w_currentTask := w_currentTask worker; w_lastHeartbeat := now;
           w_tasksCompleted := w_tasksCompleted worker + 1;
           w_tasksSuccessful := if success then w_tasksSuccessful worker + 1
                                else w_tasksSuccessful worker;
           w_tasksFailed := if success then w_tasksFailed worker
                            else w_tasksFailed worker + 1 |} in
      mkHM (map_set (hm_workers st1) workerId worker') (hm_history st1) (hm_recovery st1)
    end
  end.

(** [processHeartbeat(workerId, metadata)]; the [resourceUsage] write goes to
    a fresh metrics object and is lost. *)
Definition processHeartbeat (now : Z) (st : HMState) (workerId : string) : HMState :=
  match map_get (hm_workers st) workerId with
  | None => st
  | Some worker =>
    let worker' :=
      {| w_id := w_id worker; w_status := w_status worker;
         w_currentTask := w_currentTask worker; w_lastHeartbeat := now;
         w_tasksCompleted := w_tasksCompleted worker;
         w_tasksSuccessful := w_tasksSuccessful worker;
         w_tasksFailed := w_tasksFailed worker |} in
    mkHM (map_set (hm_workers st) workerId worker') (hm_history st) (hm_recovery st)
  end.

(** [getWorkerMetrics(workerId)] *)
Definition getWorkerMetrics (cfg : WorkerHealthConfig) (now : Z) (st : HMState)
    (workerId : string) : option WorkerPerformanceMetrics :=
  calculatePerformanceMetrics cfg now (hm_workers st) (hm_history st) (hm_recovery st) workerId.

(** The issues a health check reports, in the order it checks them
    (each comes with one recommendation in the source). *)
Inductive Issue :=
| HeartbeatTimeout (timeSinceHeartbeat : Z)
| LowSuccessRate (successRate : Q)
| HighFailureStreak (failureStreak : Z).

Record HealthCheckResult := mkHCR {
  hc_workerId : string;
  hc_isHealthy : bool;
  hc_issues : list Issue;
  hc_metrics : WorkerPerformanceMetrics
}.

(** [performHealthCheck(workerId)]; [None] is the thrown error (unknown
    worker, or no metrics).  The CPU and memory checks read
    [metrics.resourceUsage], which the object [calculatePerformanceMetrics]
    returns never has, so they never add an issue. *)
Definition performHealthCheck (cfg : WorkerHealthConfig) (now : Z) (st : HMState)
    (workerId : string) : option HealthCheckResult :=
  match map_get (hm_workers st) workerId with
  | None => None
  | Some worker =>
    match getWorkerMetrics cfg now st workerId with
    | None => None
    | Some metrics =>
      let timeSinceHeartbeat := now - w_lastHeartbeat worker in
      let issues :=
        (if heartbeatTimeoutMs cfg <? timeSinceHeartbeat
         then [HeartbeatTimeout timeSinceHeartbeat] else []) ++
        (if Qlt_bool (m_successRate metrics) (minSuccessRate cfg)
         then [LowSuccessRate (m_successRate metrics)] else []) ++
        (if maxFailureStreak cfg <=? m_failureStreak metrics
         then [HighFailureStreak (m_failureStreak metrics)] else []) in
      Some {| hc_workerId := workerId;
              hc_isHealthy := (length issues =? 0)%nat;
              hc_issues := issues;
              hc_metrics := metrics |}
    end
  end.

(** The part of [getSystemHealthMetrics()] the monitor computes. *)
Record SystemHealth := mkSH {
  sh_totalAccountsCreated : Z;
  sh_successRate : Q;
  sh_activeWorkers : nat;
  sh_failedTasks : Z;
  sh_healthyWorkers : Z;
  sh_degradedWorkers : Z;
  sh_unhealthyWorkers : Z;
  sh_averageHealthScore : Q
}.

(** The loop accumulators: healthy, degraded, unhealthy, total score,
    successful, failed, completed. *)
Record HealthAcc := mkAcc {
  a_healthy : Z; a_degraded : Z; a_unhealthy : Z; a_score : Q;
  a_successful : Z; a_failed : Z; a_completed : Z
}.

Definition healthStep (cfg : WorkerHealthConfig) (now : Z) (st : HMState)
    (acc : HealthAcc) (worker : WorkerStatus) : HealthAcc :=
  let acc1 :=
    match getWorkerMetrics cfg now st (w_id worker) with
    | None => acc
    | Some m =>
      let score := (a_score acc + m_healthScore m)%Q in
      match m_status m with
      | H_healthy => mkAcc (a_healthy acc + 1) (a_degraded acc) (a_unhealthy acc) score
                       (a_successful acc) (a_failed acc) (a_completed acc)
      | H_degraded => mkAcc (a_healthy acc) (a_degraded acc + 1) (a_unhealthy acc) score
                       (a_successful acc) (a_failed acc) (a_completed acc)
      | H_unhealthy | H_recovering =>
          mkAcc (a_healthy acc) (a_degraded acc) (a_unhealthy acc + 1) score
                (a_successful acc) (a_failed acc) (a_completed acc)
      end
    end in
  mkAcc (a_healthy acc1) (a_degraded acc1) (a_unhealthy acc1) (a_score acc1)
        (a_successful acc1 + w_tasksSuccessful worker)
        (a_failed acc1 + w_tasksFailed worker)
        (a_completed acc1 + w_tasksCompleted worker).

(** [getSystemHealthMetrics()] *)
Definition getSystemHealthMetrics (cfg : WorkerHealthConfig) (now : Z) (st : HMState)
    : SystemHealth :=
  let workers := map snd (hm_workers st) in
  let totalWorkers := Z.of_nat (length workers) in
  let acc := fold_left (healthStep cfg now st) workers (mkAcc 0 0 0 0 0 0 0) in
  {| sh_totalAccountsCreated := a_completed acc;
     sh_successRate :=
       if 0 <? a_completed acc
       then (inject_Z (a_successful acc) / inject_Z (a_completed acc))%Q else 0%Q;
     sh_activeWorkers :=
       length (filter (fun w => WStatus_eqb (w_status w) W_busy
                                || WStatus_eqb (w_status w) W_idle) workers);
     sh_failedTasks := a_failed acc;
     sh_healthyWorkers := a_healthy acc;
     sh_degradedWorkers := a_degraded acc;
     sh_unhealthyWorkers := a_unhealthy acc;
     sh_averageHealthScore :=
       if 0 <? totalWorkers then (a_score acc / inject_Z totalWorkers)%Q else 0%Q |}.

(** [attemptWorkerRecovery(workerId)] up to its [await] of the recovery
    delay: [None] is the early [return false] once the attempts are used up;
    otherwise the attempt is counted and the worker set offline. *)
Definition recoveryStart (cfg : WorkerHealthConfig) (st : HMState) (workerId : string)
    : option HMState :=
  let currentAttempts :=
    match map_get (hm_recovery st) workerId with Some n => n | None => 0 end in
  if recoveryAttempts cfg <=? currentAttempts then None
  else
    let st1 := mkHM (hm_workers st) (hm_history st)
                 (map_set (hm_recovery st) workerId (currentAttempts + 1)) in
    match map_get (hm_workers st1) workerId with
    | None => Some st1
    | Some worker =>
      Some (mkHM (map_set (hm_workers st1) workerId
                    {| w_id := w_id worker; w_status := W_offline;
                       w_currentTask := w_currentTask worker;
                       w_lastHeartbeat := w_lastHeartbeat worker;
                       w_tasksCompleted := w_tasksCompleted worker;
                       w_tasksSuccessful := w_tasksSuccessful worker;
                       w_tasksFailed := w_tasksFailed worker |})
                 (hm_history st1) (hm_recovery st1))
    end.

(** The rest of [attemptWorkerRecovery] after the delay: a health check; a
    healthy worker has its attempts reset to 0.  A thrown health check is
    caught and answers [false]. *)
Definition recoveryFinish (cfg : WorkerHealthConfig) (now : Z) (st : HMState)
    (workerId : string) : bool * HMState :=
  match performHealthCheck cfg now st workerId with
  | None => (false, st)
  | Some r =>
    if hc_isHealthy r
    then (true, mkHM (hm_workers st) (hm_history st) (map_set (hm_recovery st) workerId 0))
    else (false, st)
  end.

Section Runs.
Variable cfg : WorkerHealthConfig.

(** The monitor's operations, each one run to its next [await].
    [updateWorkerStatus] is taken with patches that keep the worker's id, as
    every caller in the repository passes the worker's own record. *)
Inductive HMStep : HMState -> HMState -> Prop :=
| hs_register st w : HMStep st (registerWorker st w)
| hs_unregister st id : HMStep st (unregisterWorker st id)
| hs_update st id p :
    (forall i, wp_id p = Some i -> i = id) -> HMStep st (updateWorkerStatus st id p)
| hs_record st now id success d : HMStep st (recordTaskCompletion cfg now st id success d)
| hs_heartbeat st now id : HMStep st (processHeartbeat now st id)
| hs_recoveryStart st st' id : recoveryStart cfg st id = Some st' -> HMStep st st'
| hs_recoveryFinish st now id : HMStep st (snd (recoveryFinish cfg now st id)).

Inductive HMReachable : HMState -> Prop :=
| hr_init : HMReachable initialHM
| hr_step st st' : HMReachable st -> HMStep st st' -> HMReachable st'.

End Runs.

(** Every worker record is stored under its own id, and every worker has a
    history entry. *)
Definition hmInvariant (st : HMState) : Prop :=
  forall k w, In (k, w) (hm_workers st) -> w_id w = k /\ map_get (hm_history st) k <> None.

End HealthMonitorOps.

(** * Theorems *)

(** ** Rate limiter *)
Section RateLimiterProofs.
Import RateLimiter SpecWords.

(** C5: [canCreateAccount] is the first-match evaluation of the five gate
    conditions in the order cooldown-active, daily-limit, hourly-limit,
    min-delay-not-elapsed, burst-limit, each denial carrying its wait time and
    next-available instant, an expired cooldown being cleared first; it allows
    exactly when none of the conditions holds. *)
Theorem canCreateAccount_gate_order (cfg : RateLimitConfig) (nextDayReset nextHourReset : Z -> Z)
    (now : Z) (st : RateLimitState) :
  canCreateAccount cfg nextDayReset nextHourReset now st
  = gateSpec cfg nextDayReset nextHourReset now st.
Proof.
  unfold canCreateAccount, gateSpec, gateConditions, clearExpiredCooldown.
  destruct st as [td th last cd inc cu sr ra];
    cbn -[Qfloor getRecentCreations Qlt_bool Qle_bool].
  destruct inc; [destruct cu as [u|]|]; cbn -[Qfloor getRecentCreations Qlt_bool Qle_bool].
  - destruct (0 <? u - now) eqn:E1; destruct (u <=? now) eqn:E2; destruct (now <? u) eqn:E3;
      try (exfalso; rewrite ?Z.ltb_lt, ?Z.ltb_ge, ?Z.leb_le, ?Z.leb_gt in *; lia);
      cbn -[Qfloor getRecentCreations Qlt_bool Qle_bool]; try reflexivity;
      repeat (match goal with |- context [if ?b then _ else _] => destruct b end);
      reflexivity.
  - repeat (match goal with |- context [if ?b then _ else _] => destruct b end); reflexivity.
  - repeat (match goal with |- context [if ?b then _ else _] => destruct b end); reflexivity.
Qed.

(** C9: [resetLimits] is idempotent, and leaves the counters at 0, no
    cooldown, an empty window, success rate 1 and the minimum delay. *)
Theorem resetLimits_idempotent (cfg : RateLimitConfig) (st : RateLimitState) :
  resetLimits cfg (resetLimits cfg st) = resetLimits cfg st /\
  accountsCreatedToday (resetLimits cfg st) = 0 /\
  accountsCreatedThisHour (resetLimits cfg st) = 0 /\
  isInCooldown (resetLimits cfg st) = false /\
  cooldownUntil (resetLimits cfg st) = None /\
  recentAttempts (resetLimits cfg st) = [] /\
  successRate (resetLimits cfg st) = 1%Q /\
  currentDelay (resetLimits cfg st) = (fst (delayBetweenAccounts cfg) * 1000)%Q.
Proof. repeat split. Qed.

End RateLimiterProofs.

(** ** Orchestrator: system status *)
Section StatusProofs.
Import Orchestrator OrchRuns.

(** C10: [getSystemStatus] reports as queued the pending and the in-progress
    tasks together, and as active the registered workers that are idle or
    busy (the failed and offline ones make up the rest). *)
Theorem getSystemStatus_aggregation (st : OrchState) :
  queuedTasks (getSystemStatus st) = (length (pending st) + length (inProgress st))%nat /\
  activeWorkers (getSystemStatus st)
    = (workersWithStatus st W_idle + workersWithStatus st W_busy)%nat /\
  (activeWorkers (getSystemStatus st) + workersWithStatus st W_failed
     + workersWithStatus st W_offline)%nat = length (workers st).
Proof.
  unfold getSystemStatus, workersWithStatus; cbn [activeWorkers queuedTasks].
  split; [reflexivity|].
  rewrite <- (length_map snd (workers st)).
  induction (map snd (workers st)) as [|a l IH]; [split; reflexivity|].
  cbn [filter length]; destruct IH as [IH1 IH2].
  destruct (w_status (getWorker st a)); cbn [WStatus_eqb orb negb];
    cbn [length]; lia.
Qed.

End StatusProofs.

(** ** Orchestrator: where the tasks are *)
Section ConservationProofs.
Import Orchestrator OrchRuns.
Local Open Scope nat_scope.


Lemma cnt_app l1 l2 y : cnt (l1 ++ l2) y = cnt l1 y + cnt l2 y.
Proof. unfold cnt; apply count_occ_app. Qed.

Lemma cnt_cons x l y : cnt (x :: l) y = ind x y + cnt l y.
Proof. unfold cnt, ind; simpl; destruct (Nat.eq_dec x y); reflexivity. Qed.

Lemma cnt_nil y : cnt [] y = 0.
Proof. reflexivity. Qed.

Lemma cnt_In l x : In x l <-> 0 < cnt l x.
Proof. unfold cnt; apply count_occ_In. Qed.

Lemma cnt_ip_delete l x y : cnt (ip_delete l x) y = if Nat.eq_dec x y then 0 else cnt l y.
Proof.
  induction l as [|a l IH]; [destruct (Nat.eq_dec x y); reflexivity|].
  unfold ip_delete in *; cbn [filter].
  destruct (Nat.eqb x a) eqn:E; cbn [negb].
  - apply Nat.eqb_eq in E; subst a. rewrite IH, cnt_cons. unfold ind.
    destruct (Nat.eq_dec x y); lia.
  - apply Nat.eqb_neq in E. rewrite !cnt_cons, IH. unfold ind.
    destruct (Nat.eq_dec a y), (Nat.eq_dec x y); subst; try lia; contradiction.
Qed.

Lemma cnt_remove_first l x y : In x l -> cnt (remove_first x l) y + ind x y = cnt l y.
Proof.
  induction l as [|a l IH]; [intros []|]. intros Hin; cbn [remove_first].
  destruct (Nat.eqb x a) eqn:E.
  - apply Nat.eqb_eq in E; subst a. rewrite cnt_cons; lia.
  - apply Nat.eqb_neq in E. destruct Hin as [->|Hin]; [contradiction|].
    rewrite !cnt_cons, <- (IH Hin); lia.
Qed.

Lemma cnt_ip_set l x y : cnt l x = 0 -> cnt (ip_set l x) y = cnt l y + ind x y.
Proof.
  intros H0. unfold ip_set.
  destruct (existsb (Nat.eqb x) l) eqn:E.
  - exfalso. apply existsb_exists in E as [z [Hz Ez]]. apply Nat.eqb_eq in Ez; subst z.
    apply cnt_In in Hz; lia.
  - rewrite cnt_app, cnt_cons, cnt_nil; lia.
Qed.

Lemma cnt_seq_S n y : cnt (seq 0 (S n)) y = cnt (seq 0 n) y + ind n y.
Proof. rewrite seq_S; cbn [Nat.add]; rewrite cnt_app, cnt_cons, cnt_nil; lia. Qed.

Lemma cnt_seq_le1 n y : cnt (seq 0 n) y <= 1.
Proof. unfold cnt; apply (proj1 (NoDup_count_occ Nat.eq_dec _)), seq_NoDup. Qed.

Lemma cnt_held st y :
  cnt (heldTasks st) y
  = cnt (pending st) y + cnt (inProgress st) y + cnt (completed st) y
    + cnt (failed st) y + cnt (timers st) y.
Proof. unfold heldTasks; rewrite !cnt_app; lia. Qed.

Lemma length_list_update {A} (l : list A) n f : length (list_update l n f) = length l.
Proof. revert n; induction l as [|a l IH]; intros [|n]; simpl; auto. Qed.



Lemma SameHeld_refl st : SameHeld st st.
Proof. split; reflexivity. Qed.

Lemma SameHeld_trans a b c : SameHeld a b -> SameHeld b c -> SameHeld a c.
Proof. intros [H1 H2] [H3 H4]; split; [congruence|intros y; rewrite H4, H2; reflexivity]. Qed.

Lemma SameHeld_AtMostOnce st st' : SameHeld st st' -> AtMostOnce st -> AtMostOnce st'.
Proof. intros [_ H] Hm y; rewrite H; apply Hm. Qed.

Lemma updWorkerAndSet_same st wref f : SameHeld st (updWorkerAndSet st wref f).
Proof. split; reflexivity. Qed.

Lemma updTask_same st tid f : SameHeld st (updTask st tid f).
Proof. split; [apply length_list_update|reflexivity]. Qed.

(** A task held once, found in [inProgress], is there once and nowhere else. *)
Lemma held_once_inProgress st x :
  AtMostOnce st -> In x (inProgress st) ->
  cnt (inProgress st) x = 1 /\ cnt (pending st) x = 0 /\ cnt (completed st) x = 0 /\
  cnt (failed st) x = 0 /\ cnt (timers st) x = 0.
Proof. intros Hm Hin; apply cnt_In in Hin; specialize (Hm x); rewrite cnt_held in Hm; lia. Qed.

Lemma held_once_pending st x :
  AtMostOnce st -> In x (pending st) -> cnt (inProgress st) x = 0.
Proof. intros Hm Hin; apply cnt_In in Hin; specialize (Hm x); rewrite cnt_held in Hm; lia. Qed.

End ConservationProofs.

Section ConservationSteps.
Import Orchestrator OrchRuns.
Local Open Scope nat_scope.

Ltac held_simpl :=
  unfold SameHeld, heldTasks;
  cbn -[cnt remove_first ip_set ip_delete list_update map_set map_get getTask].

Lemma distributeTask_same st tid available :
  AtMostOnce st -> In tid (pending st) -> SameHeld st (distributeTask st tid available).
Proof.
  intros Hm Hin. unfold distributeTask.
  destruct (selectOptimalWorker st available) as [wref|]; [|apply SameHeld_refl].
  pose proof (held_once_pending st tid Hm Hin) as H0.
  held_simpl. split; [apply length_list_update|]. intros y.
  rewrite !cnt_app, (cnt_ip_set _ _ _ H0).
  pose proof (cnt_remove_first (pending st) tid y Hin). lia.
Qed.

Lemma processLoop_same n st available :
  AtMostOnce st -> SameHeld st (processLoop n st available).
Proof.
  revert st; induction n as [|n IH]; intros st Hm; [apply SameHeld_refl|].
  cbn [processLoop]. destruct (pending st) as [|task rest] eqn:Ep; [apply IH, Hm|].
  assert (Hs : SameHeld st (distributeTask st task available))
    by (apply distributeTask_same; [exact Hm|rewrite Ep; left; reflexivity]).
  eapply SameHeld_trans; [exact Hs|]. apply IH. eapply SameHeld_AtMostOnce; eauto.
Qed.

Lemma processPendingTasks_same cfg allowed st :
  AtMostOnce st -> SameHeld st (processPendingTasks cfg allowed st).
Proof.
  intros Hm. unfold processPendingTasks.
  destruct (isPaused st || _); [apply SameHeld_refl|].
  destruct (negb allowed); [apply SameHeld_refl|].
  destruct (getAvailableWorkers st); [apply SameHeld_refl|]. apply processLoop_same, Hm.
Qed.

Lemma completeTask_same now st tid wref :
  AtMostOnce st -> In tid (inProgress st) -> SameHeld st (completeTask now st tid wref).
Proof.
  intros Hm Hin. pose proof (held_once_inProgress st tid Hm Hin) as H1.
  unfold completeTask. held_simpl. split; [apply length_list_update|]. intros y.
  rewrite !cnt_app, cnt_ip_delete, cnt_cons, cnt_nil. unfold ind.
  destruct (Nat.eq_dec tid y); subst; lia.
Qed.

Lemma failTask_same now st tid wref msg :
  AtMostOnce st -> In tid (inProgress st) -> SameHeld st (failTask now st tid wref msg).
Proof.
  intros Hm Hin. pose proof (held_once_inProgress st tid Hm Hin) as H1.
  unfold failTask, failTaskRecord.
  destruct wref as [r|];
    match goal with |- context [if ?c then _ else _] => destruct c end;
    held_simpl; (split; [rewrite ?length_list_update; reflexivity|]); intros y;
    rewrite !cnt_app, cnt_ip_delete, ?cnt_cons, ?cnt_nil; unfold ind;
    destruct (Nat.eq_dec tid y); subst; lia.
Qed.

Lemma finishExecution_same now st tid wref success :
  AtMostOnce st -> In tid (inProgress st) ->
  SameHeld st (finishExecution now st tid wref success).
Proof.
  intros Hm Hin. unfold finishExecution.
  set (st1 := with_inflight st _).
  assert (H1 : SameHeld st st1) by (split; reflexivity).
  assert (Hm1 : AtMostOnce st1) by (eapply SameHeld_AtMostOnce; eauto).
  eapply SameHeld_trans; [exact H1|].
  destruct success; [apply completeTask_same|apply failTask_same]; assumption.
Qed.

Lemma fireTimer_same st tid : In tid (timers st) -> SameHeld st (fireTimer st tid).
Proof.
  intros Hin. unfold fireTimer. held_simpl. split; [reflexivity|]. intros y.
  rewrite !cnt_app, cnt_cons, cnt_nil.
  pose proof (cnt_remove_first (timers st) tid y Hin). lia.
Qed.

Lemma reassignTask_same st tid :
  AtMostOnce st -> In tid (inProgress st) -> SameHeld st (reassignTask st tid).
Proof.
  intros Hm Hin. pose proof (held_once_inProgress st tid Hm Hin) as H1.
  unfold reassignTask. held_simpl. split; [apply length_list_update|]. intros y.
  rewrite cnt_cons, !cnt_app, cnt_ip_delete. unfold ind.
  destruct (Nat.eq_dec tid y); subst; lia.
Qed.

Lemma fold_reassign_same l st :
  AtMostOnce st -> NoDup l -> (forall x, In x l -> In x (inProgress st)) ->
  SameHeld st (fold_left reassignTask l st).
Proof.
  revert st; induction l as [|a l IH]; intros st Hm Hnd Hincl; [apply SameHeld_refl|].
  cbn [fold_left]. inversion Hnd as [|? ? Hna Hnd']; subst.
  assert (Hs : SameHeld st (reassignTask st a)) by (apply reassignTask_same; auto with datatypes).
  eapply SameHeld_trans; [exact Hs|]. apply IH; [eapply SameHeld_AtMostOnce; eauto|exact Hnd'|].
  intros x Hx. change (In x (ip_delete (inProgress st) a)). unfold ip_delete.
  apply filter_In. split; [auto with datatypes|].
  destruct (Nat.eqb a x) eqn:E; [|reflexivity].
  apply Nat.eqb_eq in E; subst; contradiction.
Qed.

Lemma attemptWorkerRecovery_same st workerId : SameHeld st (attemptWorkerRecovery st workerId).
Proof.
  unfold attemptWorkerRecovery. destruct (map_get (workers st) workerId);
    [apply updWorkerAndSet_same|apply SameHeld_refl].
Qed.

Lemma handleWorkerFailure_same now st workerId :
  AtMostOnce st -> SameHeld st (handleWorkerFailure now st workerId).
Proof.
  intros Hm. unfold handleWorkerFailure.
  destruct (map_get (workers st) workerId) as [wref|]; [|apply SameHeld_refl].
  set (st1 := updWorkerAndSet st wref _).
  assert (H1 : SameHeld st st1) by apply updWorkerAndSet_same.
  assert (Hm1 : AtMostOnce st1) by (eapply SameHeld_AtMostOnce; eauto).
  eapply SameHeld_trans; [exact H1|]. eapply SameHeld_trans; [|apply attemptWorkerRecovery_same].
  apply fold_reassign_same; [exact Hm1| |].
  - apply NoDup_filter. apply (NoDup_count_occ Nat.eq_dec). intros x.
    specialize (Hm1 x). rewrite cnt_held in Hm1. unfold cnt in Hm1. lia.
  - intros x Hx. apply filter_In in Hx. apply Hx.
Qed.


Lemma Inv_AtMostOnce st : Inv st -> AtMostOnce st.
Proof. intros H y; rewrite H; apply cnt_seq_le1. Qed.

Lemma Inv_SameHeld st st' : SameHeld st st' -> Inv st -> Inv st'.
Proof.
  intros [Hl Hc] H y. rewrite Hc, H. unfold createdTasks. rewrite Hl. reflexivity.
Qed.

Lemma scheduleLoop_Inv cfg n st ids : Inv st -> Inv (snd (scheduleLoop cfg n st ids)).
Proof.
  revert st ids; induction n as [|n IH]; intros st ids H; [exact H|].
  cbn [scheduleLoop]. apply IH. intros y.
  unfold heldTasks, createdTasks;
    cbn -[cnt remove_first ip_set ip_delete list_update map_set map_get getTask seq].
  rewrite length_app, Nat.add_comm; cbn [length Nat.add]. rewrite cnt_seq_S.
  rewrite !cnt_app, cnt_cons, cnt_nil. specialize (H y).
  unfold heldTasks, createdTasks in H. rewrite !cnt_app in H. lia.
Qed.

Lemma ExecStep_Inv cfg st st' : ExecStep cfg st st' -> Inv st -> Inv st'.
Proof.
  intros Hs H. pose proof (Inv_AtMostOnce st H) as Hm.
  destruct Hs.
  - apply scheduleLoop_Inv, H.
  - eapply Inv_SameHeld; [apply processPendingTasks_same, Hm|exact H].
  - eapply Inv_SameHeld; [apply finishExecution_same; assumption|exact H].
  - eapply Inv_SameHeld; [apply fireTimer_same; assumption|exact H].
  - eapply Inv_SameHeld; [apply handleWorkerFailure_same, Hm|exact H].
  - eapply Inv_SameHeld; [split; reflexivity|exact H].
  - eapply Inv_SameHeld; [split; reflexivity|exact H].
  - eapply Inv_SameHeld; [split; reflexivity|exact H].
Qed.

End ConservationSteps.

Section OrchestratorClaims.
Import Orchestrator OrchRuns Scenarios.

Lemma nth_list_update_eq {A} (l : list A) n f d :
  (n < length l)%nat -> nth n (list_update l n f) d = f (nth n l d).
Proof.
  revert n; induction l as [|a l IH]; intros [|n] H; cbn in *; try lia; auto.
  apply IH; lia.
Qed.

Lemma failTaskRecord_task now st tid wref msg :
  (tid < length (tasks st))%nat ->
  t_attempts (getTask (failTaskRecord now st tid wref msg) tid) = t_attempts (getTask st tid) + 1 /\
  t_maxAttempts (getTask (failTaskRecord now st tid wref msg) tid) = t_maxAttempts (getTask st tid).
Proof.
  intros Hlt. unfold failTaskRecord, getTask.
  destruct wref; cbn [tasks updWorkerAndSet with_workers updTask with_tasks];
    rewrite nth_list_update_eq by exact Hlt; split; reflexivity.
Qed.

Lemma Inv_initial : Inv initialOrch.
Proof. intros y; reflexivity. Qed.

Lemma ExecReachable_Inv cfg st : ExecReachable cfg st -> Inv st.
Proof.
  induction 1 as [|st st' _ IH Hs]; [apply Inv_initial|].
  eapply ExecStep_Inv; eauto.
Qed.

Lemma reach_a2 : Reachable cfgTest a2.
Proof.
  apply (r_step _ a1 a2); [|apply st_tick].
  apply (r_step _ a0 a1); [|apply st_schedule].
  apply (r_step _ initialOrch a0); [apply r_init|apply st_register].
Qed.

Lemma reach_a3 : Reachable cfgTest a3.
Proof.
  apply (r_step _ a2 a3); [exact reach_a2|].
  apply st_finish. vm_compute. left; reflexivity.
Qed.

Lemma exec_reach_a3 : ExecReachable cfgTest a3.
Proof.
  apply (er_step _ a2 a3).
  - apply (er_step _ a1 a2); [|apply es_tick].
    apply (er_step _ a0 a1); [|apply es_schedule].
    apply (er_step _ initialOrch a0); [apply er_init|apply es_register].
  - apply es_finish; vm_compute; left; reflexivity.
Qed.

Lemma reach_b3 : Reachable cfgOneAttempt b3.
Proof.
  apply (r_step _ b2 b3).
  - apply (r_step _ b1 b2); [|apply st_tick].
    apply (r_step _ a0 b1); [|apply st_schedule].
    apply (r_step _ initialOrch a0); [apply r_init|apply st_register].
  - apply st_timeout. vm_compute. left; reflexivity.
Qed.

Lemma reach_d3 : Reachable cfgTest d3.
Proof.
  apply (r_step _ d2 d3).
  - apply (r_step _ d1 d2); [|apply st_tick].
    apply (r_step _ a0 d1); [|apply st_schedule].
    apply (r_step _ initialOrch a0); [apply r_init|apply st_register].
  - apply st_finish. vm_compute. left; reflexivity.
Qed.

(** C1 (amended): along every run without the timeout path, in which an
    execution result arrives while its task is still in progress, every task
    ever created is held exactly once by [pending], [inProgress], [completed],
    [failed] or a retry timer not yet fired; so
    [|pending| + |inProgress| + |completed| + |failed|] plus the number of
    waiting retry timers equals the number of tasks created. *)
Theorem task_conservation_with_retry_timers (cfg : TaskOrchestratorConfig) (st : OrchState) :
  ExecReachable cfg st ->
  Permutation (heldTasks st) (createdTasks st) /\
  (fourCount st + length (timers st))%nat = length (tasks st).
Proof.
  intros Hr. pose proof (ExecReachable_Inv cfg st Hr) as H.
  assert (Hp : Permutation (heldTasks st) (createdTasks st))
    by (apply (Permutation_count_occ Nat.eq_dec); exact H).
  split; [exact Hp|].
  apply Permutation_length in Hp. unfold heldTasks, createdTasks in Hp.
  rewrite !length_app, length_seq in Hp. unfold fourCount. lia.
Qed.

Lemma task_conservation_with_retry_timers_witness :
  ExecReachable cfgTest a3 /\
  Permutation (heldTasks a3) (createdTasks a3) /\
  (fourCount a3 + length (timers a3))%nat = length (tasks a3).
Proof.
  split; [exact exec_reach_a3|].
  apply (task_conservation_with_retry_timers cfgTest a3). exact exec_reach_a3.
Defined.

(** C1 (counterexample): once a task fails with attempts left, it sits in
    its retry timer and in none of the four collections: one task created,
    [|pending| + |inProgress| + |completed| + |failed| = 0]. *)
Lemma conservation_fails_during_retry_delay :
  ~ (forall st, Reachable cfgTest st -> fourCount st = length (tasks st)).
Proof.
  intros H. specialize (H a3 reach_a3). vm_compute in H. discriminate H.
Qed.

(** The timeout path: [handleWorkerFailure] puts the task back at the front
    of [pending], then [failTask] (attempts exhausted) also pushes it to
    [failed]; the same task is held twice. *)
Lemma timeout_path_holds_task_twice :
  Reachable cfgOneAttempt b3 /\ pending b3 = [0%nat] /\ failed b3 = [0%nat] /\
  inProgress b3 = [].
Proof. split; [exact reach_b3|]. vm_compute. repeat split. Qed.

(** C2 (code_bug): after [handleWorkerFailure("w1")] while "w1" runs task 0,
    the registered worker "w1" is [offline] and still has [currentTask = 0]. *)
Theorem handleWorkerFailure_keeps_currentTask :
  Reachable cfgTest c3 /\
  map_get (workers c3) "w1" = Some 0%nat /\
  w_status (getWorker c3 0) = W_offline /\
  w_currentTask (getWorker c3 0) = Some 0%nat.
Proof.
  split.
  - apply (r_step _ a2 c3); [exact reach_a2|apply st_workerFailure].
  - vm_compute. repeat split.
Qed.

(** C3 (counterexample): task 0 fails with attempts left while task 1,
    scheduled in the same batch, is pending; after the retry timer fires the
    pending queue is [1; 0]: the retried task comes after the other one. *)
Lemma retried_task_not_at_front :
  Reachable cfgTest d4 /\ pending d4 = [1%nat; 0%nat] /\ t_attempts (getTask d4 0) = 1.
Proof.
  split.
  - apply (r_step _ d3 d4); [exact reach_d3|]. apply st_fire. vm_compute. left; reflexivity.
  - vm_compute. split; reflexivity.
Qed.

(** C4 (code_bug): with [maxRetryAttempts = 1] the timed-out task is failed
    permanently but stays in [pending]; it is dispatched again and that
    execution fails: [attempts = 2 > maxAttempts = 1]. *)
Theorem timeout_redispatch_exceeds_maxAttempts :
  Reachable cfgOneAttempt b5 /\
  t_attempts (getTask b5 0) = 2 /\ t_maxAttempts (getTask b5 0) = 1.
Proof.
  split.
  - apply (r_step _ b4 b5).
    + apply (r_step _ b3 b4); [exact reach_b3|apply st_tick].
    + apply st_finish. vm_compute. right; left; reflexivity.
  - vm_compute. split; reflexivity.
Qed.

End OrchestratorClaims.
Section QFacts.
Local Open Scope Q_scope.

Lemma Qle_bool_compat a a' b b' : a == a' -> b == b' -> Qle_bool a b = Qle_bool a' b'.
Proof.
  intros Ha Hb. destruct (Qle_bool a b) eqn:E1, (Qle_bool a' b') eqn:E2; auto.
  - apply Qle_bool_iff in E1. rewrite Ha, Hb in E1. apply Qle_bool_iff in E1. congruence.
  - apply Qle_bool_iff in E2. rewrite <- Ha, <- Hb in E2. apply Qle_bool_iff in E2. congruence.
Qed.

Lemma Qlt_bool_iff a b : Qlt_bool a b = true <-> a < b.
Proof.
  unfold Qlt_bool. rewrite negb_true_iff. split.
  - intros H. apply Qnot_le_lt. intros H'. apply Qle_bool_iff in H'. congruence.
  - intros H. destruct (Qle_bool b a) eqn:E; [|reflexivity].
    apply Qle_bool_iff in E. exfalso. apply (Qlt_not_le _ _ H E).
Qed.

Lemma Qjsmin_compat a a' b b' : a == a' -> b == b' -> Qjsmin a b == Qjsmin a' b'.
Proof. intros Ha Hb. unfold Qjsmin. rewrite (Qle_bool_compat a a' b b' Ha Hb). destruct (Qle_bool a' b'); assumption. Qed.

Lemma Qjsmax_compat a a' b b' : a == a' -> b == b' -> Qjsmax a b == Qjsmax a' b'.
Proof. intros Ha Hb. unfold Qjsmax. rewrite (Qle_bool_compat a a' b b' Ha Hb). destruct (Qle_bool a' b'); assumption. Qed.

End QFacts.

Section RateLimiterRecord.
Import RateLimiter SpecWords.

Lemma checkCooldownTrigger_fields cfg now st :
  accountsCreatedToday (checkCooldownTrigger cfg now st) = accountsCreatedToday st /\
  accountsCreatedThisHour (checkCooldownTrigger cfg now st) = accountsCreatedThisHour st /\
  lastAccountCreation (checkCooldownTrigger cfg now st) = lastAccountCreation st /\
  currentDelay (checkCooldownTrigger cfg now st) = currentDelay st /\
  successRate (checkCooldownTrigger cfg now st) = successRate st /\
  recentAttempts (checkCooldownTrigger cfg now st) = recentAttempts st.
Proof. unfold checkCooldownTrigger; destruct (_ && _); repeat split. Qed.

(** C6 (amended): every call of recordAccountCreation increments both
    counters by one, appends the attempt to the one-hour window and prunes
    older entries, and recomputes successRate over that window.  When
    adaptiveRateAdjustment is enabled it sets currentDelay to the success-rate
    target scaled by a jitter in [0.8, 1.2] and clamped to [minDelay, maxDelay]
    (all in ms); when it is off (as after updateConfig switches it off),
    currentDelay is the random delay [getRandomDelay], which depends on the
    random draw and the configuration only, not on successRate, and lies in
    [minDelay, maxDelay] when minDelay <= maxDelay. *)
Theorem recordAccountCreation_postcondition (cfg : RateLimitConfig) (now : Z) (r : Q)
    (success : bool) (st : RateLimitState) :
  (0 <= r)%Q -> (r < 1)%Q ->
  let st' := recordAccountCreation cfg now r success st in
  accountsCreatedToday st' = accountsCreatedToday st + 1 /\
  accountsCreatedThisHour st' = accountsCreatedThisHour st + 1 /\
  recentAttempts st'
    = filter (fun a => now - 60 * 60 * 1000 <? fst a) (recentAttempts st ++ [(now, success)]) /\
  successRate st' = windowRate snd (recentAttempts st') /\
  if adaptiveRateAdjustment cfg then
    exists jitter, ((8 # 10) <= jitter <= (12 # 10))%Q /\
      (currentDelay st'
       == clampQ (fst (delayBetweenAccounts cfg) * 1000) (snd (delayBetweenAccounts cfg) * 1000)
            (targetDelay cfg (successRate st') * jitter))%Q
  else
    (currentDelay st' == getRandomDelay cfg r)%Q /\
    ((fst (delayBetweenAccounts cfg) <= snd (delayBetweenAccounts cfg))%Q ->
     (fst (delayBetweenAccounts cfg) * 1000 <= currentDelay st'
      <= snd (delayBetweenAccounts cfg) * 1000)%Q).
Proof.
  intros Hr0 Hr1 st'. unfold st', recordAccountCreation. cbv zeta.
  destruct (adaptiveRateAdjustment cfg) eqn:Had.
  - set (s3 := adjustDelayBasedOnSuccessRate cfg r _).
    destruct (checkCooldownTrigger_fields cfg now s3) as (E1 & E2 & _ & E4 & E5 & E6).
    rewrite E1, E2, E4, E5, E6. unfold s3.
    unfold adjustDelayBasedOnSuccessRate, targetDelay, clampQ, delayFactor.
    destruct (delayBetweenAccounts cfg) as [mn mx]. cbn [fst snd setCurrentDelay currentDelay
      successRate recentAttempts accountsCreatedToday accountsCreatedThisHour updateSuccessRate].
    split; [reflexivity|]. split; [reflexivity|]. split; [reflexivity|].
    split.
    { unfold windowRate. destruct (filter _ _); reflexivity. }
    exists ((8 # 10) + r * (4 # 10))%Q. split; [split; lra|].
    apply Qjsmax_compat; [reflexivity|]. apply Qjsmin_compat; [reflexivity|].
    destruct (Qle_bool (9 # 10) _); [|destruct (Qle_bool (7 # 10) _)]; ring.
  - set (s3 := setCurrentDelay (getRandomDelay cfg r) _).
    destruct (checkCooldownTrigger_fields cfg now s3) as (E1 & E2 & _ & E4 & E5 & E6).
    rewrite E1, E2, E4, E5, E6. unfold s3.
    unfold getRandomDelay.
    destruct (delayBetweenAccounts cfg) as [mn mx]. cbn [fst snd setCurrentDelay currentDelay
      successRate recentAttempts accountsCreatedToday accountsCreatedThisHour updateSuccessRate].
    split; [reflexivity|]. split; [reflexivity|]. split; [reflexivity|].
    split.
    { unfold windowRate. destruct (filter _ _); reflexivity. }
    split; [reflexivity|]. intros Hle. split; nra.
Qed.

(** Witness for C6 at the default configuration, r = 1/2, a success. *)
Lemma recordAccountCreation_postcondition_witness :
  (0 <= (1 # 2))%Q /\ ((1 # 2) < 1)%Q /\
  accountsCreatedToday (recordAccountCreation RLScenarios.cfgDefault 0 (1 # 2) true
                          (initialState RLScenarios.cfgDefault)) = 1.
Proof.
  assert (H1 : (0 <= (1 # 2))%Q) by (vm_compute; discriminate).
  assert (H2 : ((1 # 2) < 1)%Q) by (vm_compute; reflexivity).
  split; [exact H1|]. split; [exact H2|].
  destruct (recordAccountCreation_postcondition RLScenarios.cfgDefault 0 (1 # 2) true
              (initialState RLScenarios.cfgDefault) H1 H2) as (E & _).
  rewrite E. reflexivity.
Defined.

(** C6 (counterexample): with adaptiveRateAdjustment switched off through
    updateConfig, one successful recordAccountCreation leaves currentDelay at
    1500 ms, which is not the success-rate target (1200 ms) times any jitter in
    [0.8, 1.2] clamped to [1000, 2000]. *)
Lemma recordAccountCreation_delay_without_adaptation :
  ~ (exists jitter, ((8 # 10) <= jitter <= (12 # 10))%Q /\
       (currentDelay RLScenarios.stNoAdaptive
        == clampQ (fst (delayBetweenAccounts RLScenarios.cfgNoAdaptive) * 1000)
                  (snd (delayBetweenAccounts RLScenarios.cfgNoAdaptive) * 1000)
                  (targetDelay RLScenarios.cfgNoAdaptive
                     (successRate RLScenarios.stNoAdaptive) * jitter))%Q).
Proof.
  intros [j [[H1 H2] H3]].
  assert (Hd : (currentDelay RLScenarios.stNoAdaptive == 1500)%Q) by (vm_compute; reflexivity).
  assert (Ht : (targetDelay RLScenarios.cfgNoAdaptive (successRate RLScenarios.stNoAdaptive)
                == 1200)%Q) by (vm_compute; reflexivity).
  rewrite Hd in H3. unfold clampQ, Qjsmax, Qjsmin in H3.
  set (x := (targetDelay _ _ * j)%Q) in H3.
  assert (Hx : (x == 1200 * j)%Q) by (unfold x; rewrite Ht; reflexivity).
  cbn [fst snd delayBetweenAccounts RLScenarios.cfgNoAdaptive RLScenarios.cfgDefault
       updateConfig fromSystemConfig override p_delayBetweenAccounts] in H3.
  destruct (Qle_bool (2 * 1000) x) eqn:Ea; [apply Qle_bool_iff in Ea|];
  destruct (Qle_bool (1 * 1000) _) eqn:Eb; try apply Qle_bool_iff in Eb;
  try (assert (Ea' : ~ (2 * 1000 <= x)%Q) by (intros C; apply Qle_bool_iff in C; congruence));
  try (assert (Eb' : ~ (1 * 1000 <= x)%Q) by (intros C; apply Qle_bool_iff in C; congruence));
  try apply Qnot_le_lt in Ea'; try apply Qnot_le_lt in Eb'; lra.
Qed.

Lemma checkCooldownTrigger_fires cfg now st :
  (successRate st < 3 # 10)%Q -> (10 <= length (recentAttempts st))%nat ->
  checkCooldownTrigger cfg now st = triggerCooldown cfg None now st.
Proof.
  intros H1 H2. unfold checkCooldownTrigger.
  replace (Qlt_bool _ _) with true by (symmetry; apply Qlt_bool_iff; exact H1).
  replace (10 <=? _) with true by (symmetry; apply Z.leb_le; lia). reflexivity.
Qed.

Lemma canCreateAccountRun_in_cooldown cfg nd nh ts st u :
  isInCooldown st = true -> cooldownUntil st = Some u -> Forall (fun t => t < u) ts ->
  canCreateAccountRun cfg nd nh ts st
  = map (fun t => Denied CooldownActive (inject_Z (u - t)) u) ts.
Proof.
  intros Hc Hu Hts. induction Hts as [|t ts Ht _ IH]; [reflexivity|].
  cbn [canCreateAccountRun map]. unfold canCreateAccount at 1. rewrite Hc, Hu.
  replace (0 <? u - t) with true by (symmetry; apply Z.ltb_lt; lia).
  rewrite IH. reflexivity.
Qed.

(** C7: if after recordAccountCreation the window success rate is below 0.3
    and the window holds at least 10 samples, a cooldown of cooldownPeriodMs is
    in force, and every later canCreateAccount call before its expiry is denied
    with the cooldown reason and the remaining cooldown as wait time. *)
Theorem low_success_rate_triggers_cooldown (cfg : RateLimitConfig) (nextDayReset nextHourReset : Z -> Z)
    (now : Z) (r : Q) (success : bool) (st : RateLimitState) :
  (successRate (recordAccountCreation cfg now r success st) < 3 # 10)%Q ->
  (10 <= length (recentAttempts (recordAccountCreation cfg now r success st)))%nat ->
  isInCooldown (recordAccountCreation cfg now r success st) = true /\
  cooldownUntil (recordAccountCreation cfg now r success st)
    = Some (now + cooldownPeriodMs cfg) /\
  forall ts, Forall (fun t => t < now + cooldownPeriodMs cfg) ts ->
    canCreateAccountRun cfg nextDayReset nextHourReset ts
      (recordAccountCreation cfg now r success st)
    = map (fun t => Denied CooldownActive (inject_Z (now + cooldownPeriodMs cfg - t))
                      (now + cooldownPeriodMs cfg)) ts.
Proof.
  unfold recordAccountCreation. cbv zeta.
  set (s3 := if adaptiveRateAdjustment cfg then _ else _).
  destruct (checkCooldownTrigger_fields cfg now s3) as (_ & _ & _ & _ & E5 & E6).
  rewrite E5, E6. intros H1 H2.
  rewrite (checkCooldownTrigger_fires cfg now s3 H1 H2).
  split; [reflexivity|]. split; [reflexivity|].
  intros ts Hts. apply canCreateAccountRun_in_cooldown; [reflexivity|reflexivity|exact Hts].
Qed.

(** Witness for C7: nine failures then a tenth one. *)
Lemma low_success_rate_triggers_cooldown_witness :
  (successRate (recordAccountCreation RLScenarios.cfgDefault 4000000 (1 # 2) false
                  RLScenarios.stNineFailures) < 3 # 10)%Q /\
  (10 <= length (recentAttempts (recordAccountCreation RLScenarios.cfgDefault 4000000 (1 # 2)
                  false RLScenarios.stNineFailures)))%nat /\
  canCreateAccountRun RLScenarios.cfgDefault (fun t => t + 86400000) (fun t => t + 3600000)
    [4000001; 4060000]
    (recordAccountCreation RLScenarios.cfgDefault 4000000 (1 # 2) false RLScenarios.stNineFailures)
  = [Denied CooldownActive (inject_Z 1799999) 5800000;
     Denied CooldownActive (inject_Z 1740000) 5800000].
Proof.
  assert (H1 : (successRate (recordAccountCreation RLScenarios.cfgDefault 4000000 (1 # 2) false
                  RLScenarios.stNineFailures) < 3 # 10)%Q) by (vm_compute; reflexivity).
  assert (H2 : (10 <= length (recentAttempts (recordAccountCreation RLScenarios.cfgDefault
                  4000000 (1 # 2) false RLScenarios.stNineFailures)))%nat)
    by (vm_compute; lia).
  split; [exact H1|]. split; [exact H2|].
  destruct (low_success_rate_triggers_cooldown RLScenarios.cfgDefault (fun t => t + 86400000)
              (fun t => t + 3600000) 4000000 (1 # 2) false RLScenarios.stNineFailures H1 H2)
    as (_ & _ & H).
  rewrite H; [reflexivity|].
  repeat constructor; vm_compute; reflexivity.
Defined.
End RateLimiterRecord.

Section HealthProofs.
Import HealthMonitor SpecWords.

Lemma tailFailures_leadingFailures (l : list HistoryEntry) :
  tailFailures l = leadingFailures (rev l).
Proof.
  induction l as [|x l IH] using rev_ind; [reflexivity|].
  unfold tailFailures in *. rewrite fold_left_app, rev_app_distr. cbn [rev app fold_left leadingFailures]. rewrite <- IH. reflexivity.
Qed.

(** C8: for a registered worker with a history, calculatePerformanceMetrics
    yields successRate = successes / total over the window (1 for an empty
    window), failureStreak = the failures at the tail of the window, and
    healthScore = 100 minus the success-rate shortfall times 100, minus
    min(streak * 10, 50) for a positive streak, minus 30 for a heartbeat older
    than heartbeatTimeoutMs, clamped to [0, 100]; the status is healthy iff the
    score is at least 80 and degraded iff it lies in [60, 80). *)
Theorem calculatePerformanceMetrics_health_score (cfg : WorkerHealthConfig) (now : Z)
    (workers : list (string * WorkerStatus))
    (performanceHistory : list (string * list HistoryEntry))
    (recoveryAttemptsMap : list (string * Z)) (workerId : string)
    (w : WorkerStatus) (history : list HistoryEntry) :
  map_get workers workerId = Some w ->
  map_get performanceHistory workerId = Some history ->
  let recent := filter (fun h => now - performanceWindowMs cfg <? h_timestamp h) history in
  exists m,
    calculatePerformanceMetrics cfg now workers performanceHistory recoveryAttemptsMap workerId
      = Some m /\
    m_successRate m = windowRate h_success recent /\
    m_failureStreak m = tailFailures recent /\
    (m_healthScore m
     == healthScoreSpec cfg (m_successRate m) (m_failureStreak m) (now - w_lastHeartbeat w))%Q /\
    (m_status m = H_healthy <-> (80 <= m_healthScore m)%Q) /\
    (m_status m = H_degraded <-> (60 <= m_healthScore m < 80)%Q).
Proof.
  intros Hw Hh recent. unfold calculatePerformanceMetrics. rewrite Hw, Hh. cbv zeta.
  fold recent.
  eexists; split; [reflexivity|]. cbn [m_successRate m_failureStreak m_healthScore m_status].
  split.
  { unfold windowRate. destruct recent; reflexivity. }
  split; [symmetry; apply tailFailures_leadingFailures|].
  set (sr := if 0 <? Z.of_nat (length recent) then _ else _).
  set (fs := leadingFailures (rev recent)).
  set (score := Qjsmax 0 (Qjsmin 100 _)).
  assert (Hs : (score == healthScoreSpec cfg sr fs (now - w_lastHeartbeat w))%Q).
  { unfold score, healthScoreSpec, clampQ. cbv zeta.
    apply Qjsmax_compat; [reflexivity|]. apply Qjsmin_compat; [reflexivity|].
    destruct (Qlt_bool sr (minSuccessRate cfg)), (0 <? fs),
      (heartbeatTimeoutMs cfg <? now - w_lastHeartbeat w); ring. }
  split; [exact Hs|].
  destruct (Qle_bool 80 score) eqn:E80.
  - apply Qle_bool_iff in E80. split; [split; auto|].
    split; [intros C; discriminate C|]. intros [_ C]. lra.
  - assert (N80 : ~ (80 <= score)%Q) by (intros C; apply Qle_bool_iff in C; congruence).
    destruct (Qle_bool 60 score) eqn:E60.
    + apply Qle_bool_iff in E60. split; [split; [intros C; discriminate C|tauto]|].
      split; [intros _; split; [exact E60|apply Qnot_le_lt; exact N80]|reflexivity].
    + assert (N60 : ~ (60 <= score)%Q) by (intros C; apply Qle_bool_iff in C; congruence).
      split; [split; [intros C; destruct (map_get recoveryAttemptsMap workerId) as [n|];
        [destruct (negb (n =? 0))|]; discriminate C|tauto]|].
      split; [intros C; destruct (map_get recoveryAttemptsMap workerId) as [n|];
        [destruct (negb (n =? 0))|]; discriminate C|intros [C _]; tauto].
Qed.

(** Witness for C8: one success and one failure in the window, fresh heartbeat. *)
Lemma calculatePerformanceMetrics_health_score_witness :
  map_get [("w1"%string, mkWorker "w1"%string W_idle None 0 0 0 0)] "w1"%string
    = Some (mkWorker "w1"%string W_idle None 0 0 0 0) /\
  map_get [("w1"%string, [mkEntry 1000 true 5; mkEntry 2000 false 7])] "w1"%string
    = Some [mkEntry 1000 true 5; mkEntry 2000 false 7] /\
  exists m,
    calculatePerformanceMetrics (mkHConfig 30000 90000 3600000 (8 # 10) 5 3 60000) 10000
      [("w1"%string, mkWorker "w1"%string W_idle None 0 0 0 0)]
      [("w1"%string, [mkEntry 1000 true 5; mkEntry 2000 false 7])] [] "w1"%string = Some m /\
    m_status m = H_degraded.
Proof.
  assert (H1 : map_get [("w1"%string, mkWorker "w1"%string W_idle None 0 0 0 0)] "w1"%string
                 = Some (mkWorker "w1"%string W_idle None 0 0 0 0)) by reflexivity.
  assert (H2 : map_get [("w1"%string, [mkEntry 1000 true 5; mkEntry 2000 false 7])] "w1"%string
                 = Some [mkEntry 1000 true 5; mkEntry 2000 false 7]) by reflexivity.
  split; [exact H1|]. split; [exact H2|].
  destruct (calculatePerformanceMetrics_health_score
              (mkHConfig 30000 90000 3600000 (8 # 10) 5 3 60000) 10000
              [("w1"%string, mkWorker "w1"%string W_idle None 0 0 0 0)]
              [("w1"%string, [mkEntry 1000 true 5; mkEntry 2000 false 7])] [] "w1"%string
              (mkWorker "w1"%string W_idle None 0 0 0 0)
              [mkEntry 1000 true 5; mkEntry 2000 false 7] H1 H2)
    as (m & Em & _ & _ & _ & _ & Hdeg).
  exists m. split; [exact Em|].
  apply Hdeg. vm_compute in Em. injection Em as <-.
  split; [intros C; vm_compute in C; discriminate C|vm_compute; reflexivity].
Defined.

End HealthProofs.

(** ** Further properties of the rate limiter *)
Section RateLimiterOpsProofs.
Import RateLimiter RateLimiterOps SpecWords.

Lemma inject_Z_pos (z : Z) : 0 < z -> (0 < inject_Z z)%Q.
Proof. intros H. unfold Qlt; cbn; lia. Qed.

Lemma clamp_bounds (lo hi x : Q) : (lo <= hi)%Q -> (lo <= Qjsmax lo (Qjsmin hi x) <= hi)%Q.
Proof.
  intros H. unfold Qjsmax, Qjsmin.
  destruct (Qle_bool hi x) eqn:E1; cbv iota beta; destruct (Qle_bool lo _) eqn:E2;
  repeat match goal with
  | E : Qle_bool _ _ = true |- _ => apply Qle_bool_iff in E
  | E : Qle_bool ?a ?b = false |- _ =>
      assert (~ (a <= b)%Q) by (intros C; apply Qle_bool_iff in C; congruence); clear E
  end;
  repeat match goal with N : ~ (_ <= _)%Q |- _ => apply Qnot_le_lt in N end; lra.
Qed.

Ltac destruct_ifs_in E :=
  repeat match type of E with
  | context [if ?b then _ else _] => let Hb := fresh "Hb" in destruct b eqn:Hb
  end.

Lemma denial_wait_slot (cfg : RateLimitConfig) (nextDayReset nextHourReset : Z -> Z)
    (now : Z) (st st' : RateLimitState) (reason : Reason) (waitTimeMs : Q) (slot : Z) :
  now < nextDayReset now -> now < nextHourReset now ->
  canCreateAccount cfg nextDayReset nextHourReset now st = (Denied reason waitTimeMs slot, st') ->
  (0 < waitTimeMs)%Q /\ slot = now + Qfloor waitTimeMs.
Proof.
  intros Hd Hh E. unfold canCreateAccount in E.
  destruct (isInCooldown st); [destruct (cooldownUntil st) as [u|]|]; cbv zeta in E;
  destruct_ifs_in E; try discriminate E; injection E as <- <- <- _;
  try (rewrite Qfloor_Z); try (split; [apply inject_Z_pos; lia | lia]).
  all: split; [|reflexivity].
  all: match goal with H : Qlt_bool _ _ = true |- _ => apply Qlt_bool_iff in H end;
    cbn [currentDelay lastAccountCreation] in *; lra.
Qed.


(** X1: every denial of [canCreateAccount] has a positive wait time, and its
    next available instant is [now] plus the wait rounded down to whole
    milliseconds (provided the calendar resets lie in the future). *)
Theorem canCreateAccount_denial_wait (cfg : RateLimitConfig) (nextDayReset nextHourReset : Z -> Z)
    (now : Z) (st st' : RateLimitState) (reason : Reason) (waitTimeMs : Q) (slot : Z) :
  now < nextDayReset now -> now < nextHourReset now ->
  canCreateAccount cfg nextDayReset nextHourReset now st = (Denied reason waitTimeMs slot, st') ->
  (0 < waitTimeMs)%Q /\ slot = now + Qfloor waitTimeMs.
Proof. apply denial_wait_slot. Qed.

(** Witness for X1: half a second after a creation, the one-second delay is
    not over. *)
Lemma canCreateAccount_denial_wait_witness :
  exists w slot st',
    canCreateAccount RLScenarios.cfgDefault (fun t => t + 86400000) (fun t => t + 3600000) 500
      (initialState RLScenarios.cfgDefault) = (Denied MinDelayNotElapsed w slot, st') /\
    (0 < w)%Q /\ slot = 500 + Qfloor w.
Proof.
  do 3 eexists.
  assert (E : canCreateAccount RLScenarios.cfgDefault (fun t => t + 86400000)
                (fun t => t + 3600000) 500 (initialState RLScenarios.cfgDefault)
              = (Denied MinDelayNotElapsed (1 * 1000 - inject_Z (500 - 0))%Q
                   (500 + Qfloor (1 * 1000 - inject_Z (500 - 0))%Q)
                 , initialState RLScenarios.cfgDefault)) by (vm_compute; reflexivity).
  split; [exact E|].
  refine (canCreateAccount_denial_wait RLScenarios.cfgDefault (fun t => t + 86400000)
           (fun t => t + 3600000) 500 _ _ _ _ _ _ _ E); lia.
Defined.

(** X2: [getNextAvailableSlot()] never returns an instant before [now]
    (provided the calendar resets lie in the future). *)
Theorem getNextAvailableSlot_not_before_now (cfg : RateLimitConfig)
    (nextDayReset nextHourReset : Z -> Z) (now : Z) (st : RateLimitState) :
  now < nextDayReset now -> now < nextHourReset now ->
  now <= fst (getNextAvailableSlot cfg nextDayReset nextHourReset now st).
Proof.
  intros Hd Hh. unfold getNextAvailableSlot.
  destruct (canCreateAccount cfg nextDayReset nextHourReset now st) as [d st'] eqn:E.
  destruct d as [|reason w slot]; cbn [fst]; [lia|].
  destruct (denial_wait_slot cfg nextDayReset nextHourReset now st st' reason w slot Hd Hh E)
    as [Hw ->].
  assert (H0 : (0 <= Qfloor w)%Z).
  { change 0%Z with (Qfloor 0). apply Qfloor_resp_le. lra. }
  lia.
Qed.

(** Witness for X2. *)
Lemma getNextAvailableSlot_not_before_now_witness :
  0 < (fun t => t + 86400000) 0 /\ 0 < (fun t => t + 3600000) 0 /\
  0 <= fst (getNextAvailableSlot RLScenarios.cfgDefault (fun t => t + 86400000)
              (fun t => t + 3600000) 0 (initialState RLScenarios.cfgDefault)).
Proof.
  split; [lia|]. split; [lia|].
  apply getNextAvailableSlot_not_before_now; lia.
Defined.

(** X3: [canCreateAccount] leaves the counters, the last creation time, the
    delay, the success rate and the attempt window untouched; the only
    change it can make is to clear a cooldown whose end is not after [now]. *)
Theorem canCreateAccount_only_clears_expired_cooldown (cfg : RateLimitConfig)
    (nextDayReset nextHourReset : Z -> Z) (now : Z) (st : RateLimitState) :
  let st' := snd (canCreateAccount cfg nextDayReset nextHourReset now st) in
  accountsCreatedToday st' = accountsCreatedToday st /\
  accountsCreatedThisHour st' = accountsCreatedThisHour st /\
  lastAccountCreation st' = lastAccountCreation st /\
  currentDelay st' = currentDelay st /\
  successRate st' = successRate st /\
  recentAttempts st' = recentAttempts st /\
  (st' = st \/
   (isInCooldown st = true /\ exists u, cooldownUntil st = Some u /\ u <= now /\
    st' = cooldownCleared st)).
Proof.
  intros st'. unfold st', canCreateAccount. cbv zeta.
  destruct (isInCooldown st) eqn:Ec; [destruct (cooldownUntil st) as [u|] eqn:Eu|].
  - destruct (0 <? u - now) eqn:Hb.
    + cbn [snd]. repeat split; left; reflexivity.
    + apply Z.ltb_ge in Hb.
      assert (Hst : forall d : Decision,
        snd (d, cooldownCleared st) = cooldownCleared st) by reflexivity.
      repeat match goal with |- context [if ?b then _ else _] => destruct b end;
      cbn [snd cooldownCleared accountsCreatedToday accountsCreatedThisHour
           lastAccountCreation currentDelay successRate recentAttempts];
      (repeat split; right; split; [reflexivity|exists u; repeat split; [lia]]).
  - repeat match goal with |- context [if ?b then _ else _] => destruct b end;
    cbn [snd]; repeat split; left; reflexivity.
  - repeat match goal with |- context [if ?b then _ else _] => destruct b end;
    cbn [snd]; repeat split; left; reflexivity.
Qed.


Lemma allowed_within_limits cfg nd nh now st st' :
  canCreateAccount cfg nd nh now st = (Allowed, st') ->
  accountsCreatedToday st' < accountsPerDay cfg /\
  accountsCreatedThisHour st' < accountsPerHour cfg.
Proof.
  intros E. unfold canCreateAccount in E.
  destruct (isInCooldown st); [destruct (cooldownUntil st) as [u|]|]; cbv zeta in E;
  destruct_ifs_in E; try discriminate E; injection E as <-;
  repeat match goal with H : (_ <=? _) = false |- _ => apply Z.leb_gt in H end;
  cbn [accountsCreatedToday accountsCreatedThisHour] in *; lia.
Qed.

Lemma record_fields cfg now r success st :
  let st' := recordAccountCreation cfg now r success st in
  accountsCreatedToday st' = accountsCreatedToday st + 1 /\
  accountsCreatedThisHour st' = accountsCreatedThisHour st + 1 /\
  lastAccountCreation st' = now /\
  recentAttempts st'
    = filter (fun a => now - 60 * 60 * 1000 <? fst a) (recentAttempts st ++ [(now, success)]) /\
  successRate st' = windowRate snd (recentAttempts st').
Proof.
  intros st'. unfold st', recordAccountCreation. cbv zeta.
  set (s3 := if adaptiveRateAdjustment cfg then _ else _).
  destruct (checkCooldownTrigger_fields cfg now s3) as (E1 & E2 & E3 & _ & E5 & E6).
  rewrite E1, E2, E3, E5, E6. unfold s3.
  destruct (adaptiveRateAdjustment cfg);
  [unfold adjustDelayBasedOnSuccessRate; destruct (delayBetweenAccounts cfg)|];
  cbn [setCurrentDelay updateSuccessRate accountsCreatedToday accountsCreatedThisHour
       lastAccountCreation recentAttempts successRate];
  (split; [reflexivity|]); (split; [reflexivity|]); (split; [reflexivity|]);
  (split; [reflexivity|]); unfold windowRate; destruct (filter _ _); reflexivity.
Qed.

(** X4: when [canCreateAccount] allows a creation, recording it right after
    keeps both counters within [accountsPerDay] and [accountsPerHour]. *)
Theorem allowed_creation_stays_within_limits (cfg : RateLimitConfig)
    (nextDayReset nextHourReset : Z -> Z) (now : Z) (r : Q) (success : bool)
    (st st' : RateLimitState) :
  canCreateAccount cfg nextDayReset nextHourReset now st = (Allowed, st') ->
  accountsCreatedToday (recordAccountCreation cfg now r success st') <= accountsPerDay cfg /\
  accountsCreatedThisHour (recordAccountCreation cfg now r success st') <= accountsPerHour cfg.
Proof.
  intros E. destruct (allowed_within_limits _ _ _ _ _ _ E) as [H1 H2].
  destruct (record_fields cfg now r success st') as (F1 & F2 & _).
  rewrite F1, F2. lia.
Qed.

(** Witness for X4: a fresh limiter asked 1000 seconds after the epoch. *)
Lemma allowed_creation_stays_within_limits_witness :
  canCreateAccount RLScenarios.cfgDefault (fun t => t + 86400000) (fun t => t + 3600000)
    1000000 (initialState RLScenarios.cfgDefault)
  = (Allowed, initialState RLScenarios.cfgDefault) /\
  accountsCreatedToday (recordAccountCreation RLScenarios.cfgDefault 1000000 (1 # 2) true
                          (initialState RLScenarios.cfgDefault))
    <= accountsPerDay RLScenarios.cfgDefault.
Proof.
  assert (E : canCreateAccount RLScenarios.cfgDefault (fun t => t + 86400000)
                (fun t => t + 3600000) 1000000 (initialState RLScenarios.cfgDefault)
              = (Allowed, initialState RLScenarios.cfgDefault)) by (vm_compute; reflexivity).
  split; [exact E|].
  exact (proj1 (allowed_creation_stays_within_limits _ _ _ _ (1 # 2) true _ _ E)).
Defined.

Lemma ratio_bounds (a b : Z) : 0 <= a -> a <= b -> 0 < b ->
  (0 <= inject_Z a / inject_Z b <= 1)%Q.
Proof.
  intros H0 H1 H2.
  assert (Hb : (0 < inject_Z b)%Q) by (unfold Qlt; cbn; lia).
  split.
  - apply Qle_shift_div_l; [exact Hb|]. rewrite Qmult_0_l. unfold Qle; cbn; lia.
  - apply Qle_shift_div_r; [exact Hb|]. rewrite Qmult_1_l. unfold Qle; cbn; lia.
Qed.

(** X5: after [recordAccountCreation], the success rate lies in [0, 1], every
    entry of the attempt window is less than an hour old, and the window ends
    with the attempt just recorded. *)
Theorem recordAccountCreation_window (cfg : RateLimitConfig) (now : Z) (r : Q)
    (success : bool) (st : RateLimitState) :
  let st' := recordAccountCreation cfg now r success st in
  (0 <= successRate st' <= 1)%Q /\
  Forall (fun a => now - 60 * 60 * 1000 < fst a) (recentAttempts st') /\
  exists older, recentAttempts st' = older ++ [(now, success)].
Proof.
  intros st'. destruct (record_fields cfg now r success st) as (_ & _ & _ & W & S).
  fold st' in W, S. rewrite S, W.
  rewrite filter_app. cbn [filter fst].
  replace (now - 60 * 60 * 1000 <? now) with true by (symmetry; apply Z.ltb_lt; lia).
  split; [|split].
  - unfold windowRate.
    destruct (filter _ (recentAttempts st) ++ [(now, success)]) as [|x l] eqn:El;
      [split; discriminate|].
    rewrite <- El. apply ratio_bounds; [lia| |].
    + apply Nat2Z.inj_le, filter_length_le.
    + rewrite length_app. cbn [length]. lia.
  - apply Forall_app. split; [|constructor; [cbn; lia|constructor]].
    apply Forall_forall. intros a Ha. apply filter_In in Ha as [_ Ha].
    apply Z.ltb_lt in Ha. exact Ha.
  - eexists. reflexivity.
Qed.

(** X6: with [delayBetweenAccounts = [min, max]] and [min <= max], the delay
    [recordAccountCreation] leaves lies in [[min, max]] (in milliseconds),
    whether adaptive adjustment is on or off. *)
Theorem recordAccountCreation_delay_in_range (cfg : RateLimitConfig) (now : Z) (r : Q)
    (success : bool) (st : RateLimitState) :
  (fst (delayBetweenAccounts cfg) <= snd (delayBetweenAccounts cfg))%Q ->
  (0 <= r)%Q -> (r < 1)%Q ->
  (fst (delayBetweenAccounts cfg) * 1000
     <= currentDelay (recordAccountCreation cfg now r success st)
     <= snd (delayBetweenAccounts cfg) * 1000)%Q.
Proof.
  intros Hmm Hr0 Hr1. unfold recordAccountCreation. cbv zeta.
  set (s3 := if adaptiveRateAdjustment cfg then _ else _).
  destruct (checkCooldownTrigger_fields cfg now s3) as (_ & _ & _ & E4 & _).
  rewrite E4. unfold s3.
  destruct (adaptiveRateAdjustment cfg).
  - unfold adjustDelayBasedOnSuccessRate. destruct (delayBetweenAccounts cfg) as [mn mx].
    cbn [fst snd setCurrentDelay currentDelay] in *. apply clamp_bounds. lra.
  - unfold getRandomDelay. destruct (delayBetweenAccounts cfg) as [mn mx].
    cbn [fst snd setCurrentDelay currentDelay] in *. nra.
Qed.

(** Witness for X6. *)
Lemma recordAccountCreation_delay_in_range_witness :
  (fst (delayBetweenAccounts RLScenarios.cfgNoAdaptive)
     <= snd (delayBetweenAccounts RLScenarios.cfgNoAdaptive))%Q /\
  (0 <= (1 # 3))%Q /\ ((1 # 3) < 1)%Q /\
  (fst (delayBetweenAccounts RLScenarios.cfgNoAdaptive) * 1000
     <= currentDelay (recordAccountCreation RLScenarios.cfgNoAdaptive 0 (1 # 3) false
                        (initialState RLScenarios.cfgNoAdaptive)))%Q.
Proof.
  assert (H1 : (fst (delayBetweenAccounts RLScenarios.cfgNoAdaptive)
                  <= snd (delayBetweenAccounts RLScenarios.cfgNoAdaptive))%Q)
    by (vm_compute; discriminate).
  assert (H2 : (0 <= (1 # 3))%Q) by (vm_compute; discriminate).
  assert (H3 : ((1 # 3) < 1)%Q) by (vm_compute; reflexivity).
  split; [exact H1|]. split; [exact H2|]. split; [exact H3|].
  exact (proj1 (recordAccountCreation_delay_in_range RLScenarios.cfgNoAdaptive 0 (1 # 3) false
                  (initialState RLScenarios.cfgNoAdaptive) H1 H2 H3)).
Defined.

(** X7: after [triggerCooldown(durationMs)] at [now], with
    [D = durationMs || cooldownPeriodMs], every [canCreateAccount] before
    [now + D] is denied for the cooldown with the remaining time as wait, and
    from [now + D] on it answers exactly as if no cooldown had been set. *)
Theorem triggerCooldown_then_canCreateAccount (cfg : RateLimitConfig)
    (nextDayReset nextHourReset : Z -> Z) (durationMs : option Z) (now t : Z)
    (st : RateLimitState) :
  let D := cooldownDuration cfg durationMs in
  (t < now + D ->
   canCreateAccount cfg nextDayReset nextHourReset t (triggerCooldown cfg durationMs now st)
   = (Denied CooldownActive (inject_Z (now + D - t)) (now + D),
      triggerCooldown cfg durationMs now st)) /\
  (now + D <= t ->
   canCreateAccount cfg nextDayReset nextHourReset t (triggerCooldown cfg durationMs now st)
   = canCreateAccount cfg nextDayReset nextHourReset t (cooldownCleared st)).
Proof.
  intros D. split; intros Ht.
  - unfold canCreateAccount at 1, triggerCooldown. fold (cooldownDuration cfg durationMs).
    fold D. cbn [isInCooldown cooldownUntil]. cbv zeta.
    replace (0 <? now + D - t) with true by (symmetry; apply Z.ltb_lt; lia). reflexivity.
  - unfold canCreateAccount, triggerCooldown. fold (cooldownDuration cfg durationMs).
    fold D. cbn [isInCooldown cooldownUntil cooldownCleared]. cbv zeta.
    replace (0 <? now + D - t) with false by (symmetry; apply Z.ltb_ge; lia). reflexivity.
Qed.

(** X8: right after [resetLimits()], [canCreateAccount] allows a creation
    whenever both limits and the burst limit are positive and the minimum
    delay has passed since the last creation. *)
Theorem resetLimits_then_allowed (cfg : RateLimitConfig) (nextDayReset nextHourReset : Z -> Z)
    (now : Z) (st : RateLimitState) :
  0 < accountsPerDay cfg -> 0 < accountsPerHour cfg -> (0 < burstLimit cfg)%Q ->
  (fst (delayBetweenAccounts cfg) * 1000 <= inject_Z (now - lastAccountCreation st))%Q ->
  canCreateAccount cfg nextDayReset nextHourReset now (resetLimits cfg st)
  = (Allowed, resetLimits cfg st).
Proof.
  intros Hd Hh Hb Hdl. unfold canCreateAccount, resetLimits.
  cbn [isInCooldown cooldownUntil accountsCreatedToday accountsCreatedThisHour
       lastAccountCreation currentDelay]. cbv zeta.
  replace (accountsPerDay cfg <=? 0) with false by (symmetry; apply Z.leb_gt; lia).
  replace (accountsPerHour cfg <=? 0) with false by (symmetry; apply Z.leb_gt; lia).
  replace (Qlt_bool _ _) with false.
  2:{ symmetry. unfold Qlt_bool. apply negb_false_iff, Qle_bool_iff. exact Hdl. }
  replace (Qle_bool (burstLimit cfg) _) with false. reflexivity.
  symmetry. unfold getRecentCreations. cbn [recentAttempts filter length].
  destruct (Qle_bool _ _) eqn:E; [|reflexivity].
  apply Qle_bool_iff in E. change (inject_Z (Z.of_nat 0)) with 0%Q in E. lra.
Qed.

(** Witness for X8. *)
Lemma resetLimits_then_allowed_witness :
  0 < accountsPerDay RLScenarios.cfgDefault /\ 0 < accountsPerHour RLScenarios.cfgDefault /\
  (0 < burstLimit RLScenarios.cfgDefault)%Q /\
  (fst (delayBetweenAccounts RLScenarios.cfgDefault) * 1000
     <= inject_Z (4000000 - lastAccountCreation RLScenarios.stNineFailures))%Q /\
  canCreateAccount RLScenarios.cfgDefault (fun t => t + 86400000) (fun t => t + 3600000)
    4000000 (resetLimits RLScenarios.cfgDefault RLScenarios.stNineFailures)
  = (Allowed, resetLimits RLScenarios.cfgDefault RLScenarios.stNineFailures).
Proof.
  assert (H1 : 0 < accountsPerDay RLScenarios.cfgDefault) by (vm_compute; reflexivity).
  assert (H2 : 0 < accountsPerHour RLScenarios.cfgDefault) by (vm_compute; reflexivity).
  assert (H3 : (0 < burstLimit RLScenarios.cfgDefault)%Q) by (vm_compute; reflexivity).
  assert (H4 : (fst (delayBetweenAccounts RLScenarios.cfgDefault) * 1000
                  <= inject_Z (4000000 - lastAccountCreation RLScenarios.stNineFailures))%Q)
    by (vm_compute; discriminate).
  split; [exact H1|]. split; [exact H2|]. split; [exact H3|]. split; [exact H4|].
  exact (resetLimits_then_allowed _ _ _ _ _ H1 H2 H3 H4).
Defined.

End RateLimiterOpsProofs.

(** ** Further properties of the worker health monitor *)
Section HealthMonitorOpsProofs.
Import HealthMonitor HealthMonitorOps SpecWords.

Lemma map_get_set_eq {V} (m : list (string * V)) k v : map_get (map_set m k v) k = Some v.
Proof.
  induction m as [|[k' v'] m IH]; cbn; [rewrite String.eqb_refl; reflexivity|].
  destruct (String.eqb k k') eqn:E; cbn; rewrite ?E; [reflexivity|exact IH].
Qed.

Lemma map_get_set_neq {V} (m : list (string * V)) k k' v :
  k' <> k -> map_get (map_set m k v) k' = map_get m k'.
Proof.
  intros Hne. induction m as [|[k0 v0] m IH]; cbn.
  - apply String.eqb_neq in Hne. rewrite Hne. reflexivity.
  - destruct (String.eqb k k0) eqn:E; cbn.
    + apply String.eqb_eq in E. subst k0.
      apply String.eqb_neq in Hne. rewrite Hne. reflexivity.
    + destruct (String.eqb k' k0); [reflexivity|exact IH].
Qed.

Lemma map_get_delete_eq {V} (m : list (string * V)) k : map_get (map_delete m k) k = None.
Proof.
  induction m as [|[k' v'] m IH]; cbn; [reflexivity|].
  destruct (String.eqb k' k) eqn:E; cbn; [exact IH|].
  rewrite String.eqb_sym, E. exact IH.
Qed.

Lemma filter_idem {A} (p : A -> bool) (l : list A) : filter p (filter p l) = filter p l.
Proof.
  induction l as [|x l IH]; cbn; [reflexivity|].
  destruct (p x) eqn:E; cbn; rewrite ?E, IH; reflexivity.
Qed.

(** X9: a worker just registered (again or for the first time), whose
    heartbeat is within the timeout, has success rate 1, no failure streak,
    health score 100 and the status healthy, provided [minSuccessRate <= 1]. *)
Theorem registerWorker_fresh_metrics (cfg : WorkerHealthConfig) (now : Z) (st : HMState)
    (worker : WorkerStatus) :
  now - w_lastHeartbeat worker <= heartbeatTimeoutMs cfg -> (minSuccessRate cfg <= 1)%Q ->
  getWorkerMetrics cfg now (registerWorker st worker) (w_id worker)
  = Some (mkMetrics (w_id worker) 1 0 0 None 100 H_healthy).
Proof.
  intros Hhb Hmin. unfold getWorkerMetrics, calculatePerformanceMetrics, registerWorker.
  cbn [hm_workers hm_history hm_recovery]. rewrite !map_get_set_eq. cbv zeta.
  cbn [filter length rev leadingFailures Z.of_nat]. change (0 <? 0) with false.
  cbv iota beta.
  replace (Qlt_bool 1 (minSuccessRate cfg)) with false.
  2:{ symmetry. unfold Qlt_bool. apply negb_false_iff, Qle_bool_iff. exact Hmin. }
  replace (heartbeatTimeoutMs cfg <? now - w_lastHeartbeat worker) with false
    by (symmetry; apply Z.ltb_ge; lia).
  reflexivity.
Qed.


(** Witness for X9: the orchestrator's monitor settings, a worker
    registered one second ago. *)
Lemma registerWorker_fresh_metrics_witness :
  1000 - w_lastHeartbeat (mkWorker "w1"%string W_idle None 0 0 0 0)
    <= heartbeatTimeoutMs (mkHConfig 10000 60000 1800000 (7 # 10) 5 3 30000) /\
  (minSuccessRate (mkHConfig 10000 60000 1800000 (7 # 10) 5 3 30000) <= 1)%Q /\
  getWorkerMetrics (mkHConfig 10000 60000 1800000 (7 # 10) 5 3 30000) 1000
    (registerWorker initialHM (mkWorker "w1"%string W_idle None 0 0 0 0)) "w1"%string
  = Some (mkMetrics "w1"%string 1 0 0 None 100 H_healthy).
Proof.
  assert (H1 : 1000 - w_lastHeartbeat (mkWorker "w1"%string W_idle None 0 0 0 0)
                 <= heartbeatTimeoutMs (mkHConfig 10000 60000 1800000 (7 # 10) 5 3 30000))
    by (cbn; lia).
  assert (H2 : (minSuccessRate (mkHConfig 10000 60000 1800000 (7 # 10) 5 3 30000) <= 1)%Q)
    by (vm_compute; discriminate).
  split; [exact H1|]. split; [exact H2|].
  exact (registerWorker_fresh_metrics _ 1000 initialHM _ H1 H2).
Defined.

Lemma map_get_delete_neq {V} (m : list (string * V)) k k' :
  k' <> k -> map_get (map_delete m k) k' = map_get m k'.
Proof.
  intros Hne. induction m as [|[k0 v0] m IH]; cbn; [reflexivity|].
  destruct (String.eqb k0 k) eqn:E; cbn.
  - apply String.eqb_eq in E. subst k0.
    apply String.eqb_neq in Hne. rewrite Hne. exact IH.
  - destruct (String.eqb k' k0); [reflexivity|exact IH].
Qed.

(** X10: after [unregisterWorker(id)] the monitor has no metrics for
    [id], a health check of [id] throws, a heartbeat, a status update or a
    task record for [id] change nothing, and the health check that ends
    [attemptWorkerRecovery(id)] answers false and changes nothing. *)
Theorem unregisterWorker_forgets (cfg : WorkerHealthConfig) (now : Z) (st : HMState)
    (workerId : string) (p : WorkerStatusPatch) (success : bool) (duration : Q) :
  let st' := unregisterWorker st workerId in
  getWorkerMetrics cfg now st' workerId = None /\
  performHealthCheck cfg now st' workerId = None /\
  processHeartbeat now st' workerId = st' /\
  updateWorkerStatus st' workerId p = st' /\
  recordTaskCompletion cfg now st' workerId success duration = st' /\
  recoveryFinish cfg now st' workerId = (false, st').
Proof.
  intros st'.
  assert (Hw : map_get (hm_workers st') workerId = None) by apply map_get_delete_eq.
  assert (Hh : map_get (hm_history st') workerId = None) by apply map_get_delete_eq.
  assert (Hm : getWorkerMetrics cfg now st' workerId = None).
  { unfold getWorkerMetrics, calculatePerformanceMetrics. rewrite Hw. reflexivity. }
  assert (Hc : performHealthCheck cfg now st' workerId = None).
  { unfold performHealthCheck. rewrite Hw. reflexivity. }
  split; [exact Hm|]. split; [exact Hc|].
  split; [unfold processHeartbeat; rewrite Hw; reflexivity|].
  split; [unfold updateWorkerStatus; rewrite Hw; reflexivity|].
  split; [unfold recordTaskCompletion; rewrite Hh; reflexivity|].
  unfold recoveryFinish. rewrite Hc. reflexivity.
Qed.

(** X11: recording a task outcome for a registered worker (with a
    positive performance window) resets the failure streak the monitor reports
    at that instant to 0 on success, and raises it by one on failure. *)
Theorem recordTaskCompletion_failure_streak (cfg : WorkerHealthConfig) (now : Z) (st : HMState)
    (workerId : string) (success : bool) (duration : Q) (history : list HistoryEntry)
    (worker : WorkerStatus) :
  0 < performanceWindowMs cfg ->
  map_get (hm_history st) workerId = Some history ->
  map_get (hm_workers st) workerId = Some worker ->
  exists m m',
    getWorkerMetrics cfg now st workerId = Some m /\
    getWorkerMetrics cfg now (recordTaskCompletion cfg now st workerId success duration) workerId
      = Some m' /\
    m_failureStreak m' = (if success then 0 else m_failureStreak m + 1).
Proof.
  intros Hwin Hh Hw. unfold getWorkerMetrics, recordTaskCompletion. rewrite Hh. cbv zeta.
  cbn [hm_workers hm_history hm_recovery]. rewrite Hw. cbn [hm_workers hm_history hm_recovery].
  unfold calculatePerformanceMetrics. rewrite !map_get_set_eq, Hw, Hh. cbv zeta.
  do 2 eexists. split; [reflexivity|]. split; [reflexivity|].
  cbn [m_failureStreak]. rewrite filter_idem, filter_app. cbn [filter h_timestamp h_success].
  replace (now - performanceWindowMs cfg <? now) with true by (symmetry; apply Z.ltb_lt; lia).
  rewrite rev_app_distr. cbn [rev app leadingFailures h_success].
  destruct success; reflexivity.
Qed.

(** Witness for X11: a registered worker records a failure. *)
Lemma recordTaskCompletion_failure_streak_witness :
  0 < performanceWindowMs (mkHConfig 10000 60000 1800000 (7 # 10) 5 3 30000) /\
  map_get (hm_history (registerWorker initialHM (mkWorker "w1"%string W_idle None 0 0 0 0)))
    "w1"%string = Some [] /\
  map_get (hm_workers (registerWorker initialHM (mkWorker "w1"%string W_idle None 0 0 0 0)))
    "w1"%string = Some (mkWorker "w1"%string W_idle None 0 0 0 0) /\
  exists m m',
    getWorkerMetrics (mkHConfig 10000 60000 1800000 (7 # 10) 5 3 30000) 1000
      (registerWorker initialHM (mkWorker "w1"%string W_idle None 0 0 0 0)) "w1"%string
      = Some m /\
    getWorkerMetrics (mkHConfig 10000 60000 1800000 (7 # 10) 5 3 30000) 1000
      (recordTaskCompletion (mkHConfig 10000 60000 1800000 (7 # 10) 5 3 30000) 1000
         (registerWorker initialHM (mkWorker "w1"%string W_idle None 0 0 0 0))
         "w1"%string false 900) "w1"%string = Some m' /\
    m_failureStreak m' = m_failureStreak m + 1.
Proof.
  assert (H1 : 0 < performanceWindowMs (mkHConfig 10000 60000 1800000 (7 # 10) 5 3 30000))
    by (cbn; lia).
  assert (H2 : map_get (hm_history (registerWorker initialHM
                 (mkWorker "w1"%string W_idle None 0 0 0 0))) "w1"%string = Some [])
    by reflexivity.
  assert (H3 : map_get (hm_workers (registerWorker initialHM
                 (mkWorker "w1"%string W_idle None 0 0 0 0))) "w1"%string
               = Some (mkWorker "w1"%string W_idle None 0 0 0 0)) by reflexivity.
  split; [exact H1|]. split; [exact H2|]. split; [exact H3|].
  exact (recordTaskCompletion_failure_streak _ 1000 _ _ false 900 _ _ H1 H2 H3).
Defined.

Lemma clamp_mono (a b : Q) : (a <= b)%Q -> (Qjsmax 0 (Qjsmin 100 a) <= Qjsmax 0 (Qjsmin 100 b))%Q.
Proof.
  intros H. unfold Qjsmax, Qjsmin.
  destruct (Qle_bool 100 a) eqn:E1; destruct (Qle_bool 100 b) eqn:E2; cbv iota beta;
  repeat match goal with |- context [Qle_bool ?x ?y] => destruct (Qle_bool x y) eqn:? end;
  repeat match goal with
  | E : Qle_bool _ _ = true |- _ => apply Qle_bool_iff in E
  | E : Qle_bool ?a ?b = false |- _ =>
      assert (~ (a <= b)%Q) by (intros C; apply Qle_bool_iff in C; congruence); clear E
  end;
  repeat match goal with N : ~ (_ <= _)%Q |- _ => apply Qnot_le_lt in N end;
  first [congruence | lra].
Qed.

(** X12: a heartbeat from a registered worker leaves the success rate
    and failure streak the monitor reports unchanged and never lowers its
    health score (for a non-negative heartbeat timeout). *)
Theorem processHeartbeat_never_lowers_score (cfg : WorkerHealthConfig) (now : Z) (st : HMState)
    (workerId : string) (worker : WorkerStatus) (history : list HistoryEntry) :
  map_get (hm_workers st) workerId = Some worker ->
  map_get (hm_history st) workerId = Some history ->
  0 <= heartbeatTimeoutMs cfg ->
  exists m m',
    getWorkerMetrics cfg now st workerId = Some m /\
    getWorkerMetrics cfg now (processHeartbeat now st workerId) workerId = Some m' /\
    m_successRate m' = m_successRate m /\ m_failureStreak m' = m_failureStreak m /\
    (m_healthScore m <= m_healthScore m')%Q.
Proof.
  intros Hw Hh Ht. unfold getWorkerMetrics, processHeartbeat. rewrite Hw.
  cbn [hm_workers hm_history hm_recovery]. unfold calculatePerformanceMetrics.
  rewrite map_get_set_eq, Hw, Hh. cbv zeta.
  do 2 eexists. split; [reflexivity|]. split; [reflexivity|].
  cbn [m_successRate m_failureStreak m_healthScore w_lastHeartbeat].
  split; [reflexivity|]. split; [reflexivity|].
  rewrite Z.sub_diag.
  replace (heartbeatTimeoutMs cfg <? 0) with false by (symmetry; apply Z.ltb_ge; lia).
  destruct (heartbeatTimeoutMs cfg <? now - w_lastHeartbeat worker).
  - apply clamp_mono. lra.
  - apply Qle_refl.
Qed.

(** Witness for X12. *)
Lemma processHeartbeat_never_lowers_score_witness :
  map_get (hm_workers (registerWorker initialHM (mkWorker "w1"%string W_idle None 0 0 0 0)))
    "w1"%string = Some (mkWorker "w1"%string W_idle None 0 0 0 0) /\
  map_get (hm_history (registerWorker initialHM (mkWorker "w1"%string W_idle None 0 0 0 0)))
    "w1"%string = Some [] /\
  0 <= heartbeatTimeoutMs (mkHConfig 10000 60000 1800000 (7 # 10) 5 3 30000) /\
  exists m m',
    getWorkerMetrics (mkHConfig 10000 60000 1800000 (7 # 10) 5 3 30000) 100000
      (registerWorker initialHM (mkWorker "w1"%string W_idle None 0 0 0 0)) "w1"%string
      = Some m /\
    getWorkerMetrics (mkHConfig 10000 60000 1800000 (7 # 10) 5 3 30000) 100000
      (processHeartbeat 100000
         (registerWorker initialHM (mkWorker "w1"%string W_idle None 0 0 0 0)) "w1"%string)
      "w1"%string = Some m' /\
    (m_healthScore m <= m_healthScore m')%Q.
Proof.
  assert (H1 : map_get (hm_workers (registerWorker initialHM
                 (mkWorker "w1"%string W_idle None 0 0 0 0))) "w1"%string
               = Some (mkWorker "w1"%string W_idle None 0 0 0 0)) by reflexivity.
  assert (H2 : map_get (hm_history (registerWorker initialHM
                 (mkWorker "w1"%string W_idle None 0 0 0 0))) "w1"%string = Some [])
    by reflexivity.
  assert (H3 : 0 <= heartbeatTimeoutMs (mkHConfig 10000 60000 1800000 (7 # 10) 5 3 30000))
    by (cbn; lia).
  split; [exact H1|]. split; [exact H2|]. split; [exact H3|].
  destruct (processHeartbeat_never_lowers_score _ 100000 _ _ _ _ H1 H2 H3)
    as (m & m' & E & E' & _ & _ & L).
  exists m, m'. split; [exact E|]. split; [exact E'|]. exact L.
Defined.

(** X13: [performHealthCheck(id)] throws exactly when [id] has no worker
    record or no history; otherwise it returns the worker's metrics and
    declares the worker healthy iff its heartbeat is within the timeout, its
    success rate is at least [minSuccessRate] and its failure streak is below
    [maxFailureStreak]. *)
Theorem performHealthCheck_verdict (cfg : WorkerHealthConfig) (now : Z) (st : HMState)
    (workerId : string) :
  match performHealthCheck cfg now st workerId with
  | None =>
    map_get (hm_workers st) workerId = None \/ map_get (hm_history st) workerId = None
  | Some r =>
    exists worker,
      map_get (hm_workers st) workerId = Some worker /\
      getWorkerMetrics cfg now st workerId = Some (hc_metrics r) /\
      (hc_isHealthy r = true <->
       now - w_lastHeartbeat worker <= heartbeatTimeoutMs cfg /\
       (minSuccessRate cfg <= m_successRate (hc_metrics r))%Q /\
       m_failureStreak (hc_metrics r) < maxFailureStreak cfg)
  end.
Proof.
  unfold performHealthCheck.
  destruct (map_get (hm_workers st) workerId) as [worker|] eqn:Hw; [|left; reflexivity].
  destruct (getWorkerMetrics cfg now st workerId) as [m|] eqn:Hm.
  - cbv zeta. exists worker. split; [reflexivity|]. split; [reflexivity|].
    cbn [hc_isHealthy hc_metrics].
    destruct (heartbeatTimeoutMs cfg <? now - w_lastHeartbeat worker) eqn:E1;
    destruct (Qlt_bool (m_successRate m) (minSuccessRate cfg)) eqn:E2;
    destruct (maxFailureStreak cfg <=? m_failureStreak m) eqn:E3;
    cbn [app length Nat.eqb];
    (split; [intros C; try discriminate C|intros (A & B & C')]);
    repeat match goal with
    | E : (_ <? _) = true |- _ => apply Z.ltb_lt in E
    | E : (_ <? _) = false |- _ => apply Z.ltb_ge in E
    | E : (_ <=? _) = true |- _ => apply Z.leb_le in E
    | E : (_ <=? _) = false |- _ => apply Z.leb_gt in E
    | E : Qlt_bool _ _ = true |- _ => apply Qlt_bool_iff in E
    | E : Qlt_bool ?a ?b = false |- _ =>
        assert (~ (a < b)%Q) by (intros Cn; apply Qlt_bool_iff in Cn; congruence); clear E
    end;
    try (exfalso; lia); try (exfalso; lra); try reflexivity.
    split; [lia|]. split; [apply Qnot_lt_le; assumption|lia].
  - right. unfold getWorkerMetrics, calculatePerformanceMetrics in Hm. rewrite Hw in Hm.
    destruct (map_get (hm_history st) workerId); [discriminate Hm|reflexivity].
Qed.


Lemma map_get_In {V} (m : list (string * V)) k v : map_get m k = Some v -> In (k, v) m.
Proof.
  induction m as [|[k' v'] m IH]; cbn; [discriminate|].
  destruct (String.eqb k k') eqn:E.
  - intros H. injection H as <-. apply String.eqb_eq in E. subst k'. left. reflexivity.
  - intros H. right. exact (IH H).
Qed.

Lemma In_map_get {V} (m : list (string * V)) k v : In (k, v) m -> map_get m k <> None.
Proof.
  induction m as [|[k' v'] m IH]; cbn; [contradiction|].
  intros [H|H].
  - injection H as -> ->. rewrite String.eqb_refl. discriminate.
  - destruct (String.eqb k k'); [discriminate|exact (IH H)].
Qed.

Lemma In_map_set {V} (m : list (string * V)) k v kv :
  In kv (map_set m k v) -> kv = (k, v) \/ In kv m.
Proof.
  induction m as [|[k' v'] m IH]; cbn.
  - intros [H|[]]. left. symmetry. exact H.
  - destruct (String.eqb k k') eqn:E; cbn.
    + apply String.eqb_eq in E. subst k'. intros [H|H]; [left; symmetry; exact H|].
      right. right. exact H.
    + intros [H|H]; [right; left; exact H|].
      destruct (IH H) as [H'|H']; [left; exact H'|right; right; exact H'].
Qed.

Lemma In_map_delete {V} (m : list (string * V)) k kv :
  In kv (map_delete m k) -> In kv m /\ fst kv <> k.
Proof.
  unfold map_delete. intros H. apply filter_In in H. destruct H as [H1 H2].
  split; [exact H1|]. intros E. rewrite E, String.eqb_refl in H2. discriminate H2.
Qed.

Lemma map_get_set_some {V} (m : list (string * V)) k k' v :
  map_get m k <> None \/ k = k' -> map_get (map_set m k' v) k <> None.
Proof.
  intros H. destruct (String.eqb k k') eqn:E.
  - apply String.eqb_eq in E. subst k'. rewrite map_get_set_eq. discriminate.
  - apply String.eqb_neq in E. rewrite map_get_set_neq by exact E.
    destruct H as [H|H]; [exact H|contradiction].
Qed.

(** Replacing the record under a key by one with the same [w_id]. *)
Lemma hmInvariant_set_worker (st : HMState) (hist' : list (string * list HistoryEntry)) workerId (worker worker' : WorkerStatus) :
  hmInvariant st ->
  map_get (hm_workers st) workerId = Some worker ->
  w_id worker' = w_id worker ->
  (forall k, map_get (hm_history st) k <> None -> map_get hist' k <> None) ->
  forall k w, In (k, w) (map_set (hm_workers st) workerId worker') ->
    w_id w = k /\ map_get hist' k <> None.
Proof.
  intros Hinv Hget Hid Hhist k w Hin.
  pose proof (Hinv _ _ (map_get_In _ _ _ Hget)) as [Hwid Hh].
  destruct (In_map_set _ _ _ _ Hin) as [E|E].
  - injection E as -> ->. split; [congruence|]. apply Hhist. exact Hh.
  - destruct (Hinv _ _ E) as [A B]. split; [exact A|]. apply Hhist. exact B.
Qed.

Lemma hmStep_invariant (cfg : WorkerHealthConfig) (st st' : HMState) :
  HMStep cfg st st' -> hmInvariant st -> hmInvariant st'.
Proof.
  intros Hs Hinv. destruct Hs as [st w|st id|st id p Hp|st now id success d|st now id
                                  |st st' id Hr|st now id].
  - intros k w0 Hin. cbn [registerWorker hm_workers hm_history] in *.
    destruct (In_map_set _ _ _ _ Hin) as [E|E].
    + injection E as -> ->. split; [reflexivity|]. apply map_get_set_some. right. reflexivity.
    + destruct (Hinv _ _ E) as [A B]. split; [exact A|]. apply map_get_set_some. left. exact B.
  - intros k w0 Hin. cbn [unregisterWorker hm_workers hm_history] in *.
    destruct (In_map_delete _ _ _ Hin) as [Hin' Hne]. cbn [fst] in Hne.
    destruct (Hinv _ _ Hin') as [A B]. split; [exact A|].
    rewrite map_get_delete_neq by exact Hne. exact B.
  - unfold updateWorkerStatus.
    destruct (map_get (hm_workers st) id) as [worker|] eqn:Hget; [|exact Hinv].
    intros k w0 Hin. cbn [hm_workers hm_history] in *.
    pose proof (Hinv _ _ (map_get_In _ _ _ Hget)) as [Hwid _].
    refine (hmInvariant_set_worker st _ id worker (applyPatch worker p) Hinv Hget _ _ k w0 Hin).
    + cbn [applyPatch w_id]. destruct (wp_id p) as [i|] eqn:Ei; cbn [patchOr]; [|reflexivity].
      rewrite (Hp i eq_refl). symmetry. exact Hwid.
    + intros k' H. exact H.
  - unfold recordTaskCompletion.
    destruct (map_get (hm_history st) id) as [history|] eqn:Hh; [|exact Hinv].
    cbv zeta. cbn [hm_workers hm_history hm_recovery].
    assert (Hhist : forall k, map_get (hm_history st) k <> None ->
              map_get (map_set (hm_history st) id
                 (filter (fun h => now - performanceWindowMs cfg <? h_timestamp h)
                    (history ++ [mkEntry now success d]))) k <> None).
    { intros k H. apply map_get_set_some. left. exact H. }
    destruct (map_get (hm_workers st) id) as [worker|] eqn:Hget.
    + intros k w0 Hin. cbn [hm_workers hm_history] in *.
      refine (hmInvariant_set_worker st _ id worker _ Hinv Hget _ Hhist k w0 Hin); reflexivity.
    + intros k w0 Hin. cbn [hm_workers hm_history] in *.
      destruct (Hinv _ _ Hin) as [A B]. split; [exact A|]. apply Hhist. exact B.
  - unfold processHeartbeat.
    destruct (map_get (hm_workers st) id) as [worker|] eqn:Hget; [|exact Hinv].
    intros k w0 Hin. cbn [hm_workers hm_history] in *.
    refine (hmInvariant_set_worker st _ id worker _ Hinv Hget _ (fun k H => H) k w0 Hin);
      reflexivity.
  - unfold recoveryStart in Hr.
    destruct (recoveryAttempts cfg <=? _); [discriminate Hr|].
    cbn [hm_workers hm_history hm_recovery] in Hr.
    destruct (map_get (hm_workers st) id) as [worker|] eqn:Hget;
      injection Hr as <-; intros k w0 Hin; cbn [hm_workers hm_history] in *.
    + refine (hmInvariant_set_worker st _ id worker _ Hinv Hget _ (fun k H => H) k w0 Hin);
      reflexivity.
    + exact (Hinv _ _ Hin).
  - unfold recoveryFinish.
    destruct (performHealthCheck cfg now st id) as [r|]; [|exact Hinv].
    destruct (hc_isHealthy r); exact Hinv.
Qed.

Lemma hmReachable_invariant (cfg : WorkerHealthConfig) (st : HMState) :
  HMReachable cfg st -> hmInvariant st.
Proof.
  induction 1 as [|st st' _ IH Hs].
  - intros k w [].
  - exact (hmStep_invariant cfg st st' Hs IH).
Qed.

Lemma workerMetrics_score_bounds (cfg : WorkerHealthConfig) now st id m :
  getWorkerMetrics cfg now st id = Some m -> (0 <= m_healthScore m <= 100)%Q.
Proof.
  unfold getWorkerMetrics, calculatePerformanceMetrics.
  destruct (map_get (hm_workers st) id); [|discriminate].
  destruct (map_get (hm_history st) id); [|discriminate].
  intros H. injection H as <-. cbn [m_healthScore]. apply clamp_bounds. lra.
Qed.

Lemma inject_Z_succ_nat (n : nat) : inject_Z (Z.of_nat (S n)) == inject_Z (Z.of_nat n) + 1.
Proof. rewrite Nat2Z.inj_succ, <- Z.add_1_r, inject_Z_plus. reflexivity. Qed.

Lemma fold_healthStep_counts (cfg : WorkerHealthConfig) now st :
  forall ws acc,
  (forall w, In w ws -> getWorkerMetrics cfg now st (w_id w) <> None) ->
  let r := fold_left (healthStep cfg now st) ws acc in
  a_healthy r + a_degraded r + a_unhealthy r
    = a_healthy acc + a_degraded acc + a_unhealthy acc + Z.of_nat (length ws) /\
  (a_score acc <= a_score r <= a_score acc + 100 * inject_Z (Z.of_nat (length ws)))%Q.
Proof.
  induction ws as [|w ws IH]; intros acc Hall; cbn [fold_left length].
  - split; [lia|]. change (inject_Z (Z.of_nat 0)) with 0%Q. lra.
  - destruct (getWorkerMetrics cfg now st (w_id w)) as [m|] eqn:Hm;
      [|exfalso; exact (Hall w (or_introl eq_refl) Hm)].
    pose proof (workerMetrics_score_bounds _ _ _ _ _ Hm) as Hb.
    assert (Hall' : forall w', In w' ws -> getWorkerMetrics cfg now st (w_id w') <> None)
      by (intros w' H; apply Hall; right; exact H).
    rewrite inject_Z_succ_nat.
    remember (healthStep cfg now st acc w) as a eqn:Ha.
    destruct (IH a Hall') as [IH1 IH2].
    unfold healthStep in Ha. rewrite Hm in Ha. cbv zeta in Ha.
    destruct (m_status m); subst a; cbn [a_healthy a_degraded a_unhealthy a_score] in *;
      (split; [lia|lra]).
Qed.

(** X14: in every state the monitor reaches from its empty start, the
    healthy, degraded and unhealthy counts of [getSystemHealthMetrics()] add
    up to the number of registered workers, and the average health score lies
    between 0 and 100. *)
Theorem getSystemHealthMetrics_counts (cfg : WorkerHealthConfig) (now : Z) (st : HMState) :
  HMReachable cfg st ->
  let s := getSystemHealthMetrics cfg now st in
  sh_healthyWorkers s + sh_degradedWorkers s + sh_unhealthyWorkers s
    = Z.of_nat (length (hm_workers st)) /\
  (0 <= sh_averageHealthScore s <= 100)%Q.
Proof.
  intros Hr. pose proof (hmReachable_invariant _ _ Hr) as Hinv. cbv zeta.
  assert (Hall : forall w, In w (map snd (hm_workers st)) ->
                   getWorkerMetrics cfg now st (w_id w) <> None).
  { intros w Hin. apply in_map_iff in Hin. destruct Hin as [[k w'] [E Hin]].
    cbn [snd] in E. subst w'. destruct (Hinv _ _ Hin) as [Hid Hh]. rewrite Hid.
    unfold getWorkerMetrics, calculatePerformanceMetrics.
    destruct (map_get (hm_workers st) k) eqn:E1; [|exfalso; exact (In_map_get _ _ _ Hin E1)].
    destruct (map_get (hm_history st) k) eqn:E2; [discriminate|contradiction]. }
  destruct (fold_healthStep_counts cfg now st _ (mkAcc 0 0 0 0 0 0 0) Hall) as [H1 H2].
  cbn [a_healthy a_degraded a_unhealthy a_score] in H1, H2.
  rewrite length_map in H1, H2.
  unfold getSystemHealthMetrics. cbv zeta.
  cbn [sh_healthyWorkers sh_degradedWorkers sh_unhealthyWorkers sh_averageHealthScore].
  rewrite length_map.
  split; [lia|].
  destruct (0 <? Z.of_nat (length (hm_workers st))) eqn:En; [|lra].
  apply Z.ltb_lt in En.
  assert (Hpos : (0 < inject_Z (Z.of_nat (length (hm_workers st))))%Q)
    by (unfold Qlt; cbn; lia).
  split.
  - apply Qle_shift_div_l; [exact Hpos|]. lra.
  - apply Qle_shift_div_r; [exact Hpos|]. lra.
Qed.

(** Witness for X14: one registered worker. *)
Lemma getSystemHealthMetrics_counts_witness :
  HMReachable (mkHConfig 10000 60000 1800000 (7 # 10) 5 3 30000)
    (registerWorker initialHM (mkWorker "w1"%string W_idle None 0 0 0 0)) /\
  sh_healthyWorkers (getSystemHealthMetrics (mkHConfig 10000 60000 1800000 (7 # 10) 5 3 30000)
     1000 (registerWorker initialHM (mkWorker "w1"%string W_idle None 0 0 0 0))) +
  sh_degradedWorkers (getSystemHealthMetrics (mkHConfig 10000 60000 1800000 (7 # 10) 5 3 30000)
     1000 (registerWorker initialHM (mkWorker "w1"%string W_idle None 0 0 0 0))) +
  sh_unhealthyWorkers (getSystemHealthMetrics (mkHConfig 10000 60000 1800000 (7 # 10) 5 3 30000)
     1000 (registerWorker initialHM (mkWorker "w1"%string W_idle None 0 0 0 0))) = 1.
Proof.
  assert (Hr : HMReachable (mkHConfig 10000 60000 1800000 (7 # 10) 5 3 30000)
                 (registerWorker initialHM (mkWorker "w1"%string W_idle None 0 0 0 0)))
    by (eapply hr_step; [apply hr_init|apply hs_register]).
  split; [exact Hr|].
  exact (proj1 (getSystemHealthMetrics_counts _ 1000 _ Hr)).
Defined.

(** X15: in every reachable state each recovery-attempt count lies
    between 0 and the configured [recoveryAttempts] (or 0 if that is
    negative): [attemptWorkerRecovery] stops counting once the limit is
    reached. *)
Theorem recovery_attempts_bounded (cfg : WorkerHealthConfig) (st : HMState) :
  HMReachable cfg st ->
  forall workerId n, In (workerId, n) (hm_recovery st) ->
  0 <= n <= Z.max 0 (recoveryAttempts cfg).
Proof.
  induction 1 as [|st st' _ IH Hs]; [intros ? ? []|].
  destruct Hs as [st w|st id|st id p Hp|st now id success d|st now id
                 |st st' id Hr|st now id]; intros k n Hin.
  - cbn [registerWorker hm_recovery] in Hin.
    destruct (In_map_set _ _ _ _ Hin) as [E|E]; [injection E as -> ->; lia|exact (IH _ _ E)].
  - cbn [unregisterWorker hm_recovery] in Hin.
    exact (IH _ _ (proj1 (In_map_delete _ _ _ Hin))).
  - unfold updateWorkerStatus in Hin.
    destruct (map_get (hm_workers st) id); exact (IH _ _ Hin).
  - unfold recordTaskCompletion in Hin.
    destruct (map_get (hm_history st) id); [|exact (IH _ _ Hin)].
    cbn [hm_workers hm_recovery] in Hin.
    destruct (map_get (hm_workers st) id); exact (IH _ _ Hin).
  - unfold processHeartbeat in Hin.
    destruct (map_get (hm_workers st) id); exact (IH _ _ Hin).
  - unfold recoveryStart in Hr.
    destruct (map_get (hm_recovery st) id) as [c|] eqn:Hc;
    destruct (recoveryAttempts cfg <=? _) eqn:Hle; try discriminate Hr;
    apply Z.leb_gt in Hle;
    cbn [hm_workers hm_recovery] in Hr;
    (destruct (map_get (hm_workers st) id); injection Hr as <-; cbn [hm_recovery] in Hin);
    (destruct (In_map_set _ _ _ _ Hin) as [E|E]; [injection E as -> ->|exact (IH _ _ E)]);
    try lia.
    all: pose proof (IH _ _ (map_get_In _ _ _ Hc)); lia.
  - unfold recoveryFinish in Hin.
    destruct (performHealthCheck cfg now st id) as [r|]; [|exact (IH _ _ Hin)].
    destruct (hc_isHealthy r); [|exact (IH _ _ Hin)].
    cbn [snd hm_recovery] in Hin.
    destruct (In_map_set _ _ _ _ Hin) as [E|E]; [injection E as -> ->; lia|exact (IH _ _ E)].
Qed.

(** Witness for X15: a registered worker after one recovery start. *)
Lemma recovery_attempts_bounded_witness :
  HMReachable (mkHConfig 10000 60000 1800000 (7 # 10) 5 3 30000)
    (mkHM [("w1"%string, mkWorker "w1"%string W_offline None 0 0 0 0)]
          [("w1"%string, [])] [("w1"%string, 1)]) /\
  In ("w1"%string, 1) [("w1"%string, 1)] /\
  0 <= 1 <= Z.max 0 (recoveryAttempts (mkHConfig 10000 60000 1800000 (7 # 10) 5 3 30000)).
Proof.
  assert (Hr : HMReachable (mkHConfig 10000 60000 1800000 (7 # 10) 5 3 30000)
    (mkHM [("w1"%string, mkWorker "w1"%string W_offline None 0 0 0 0)]
          [("w1"%string, [])] [("w1"%string, 1)])).
  { eapply hr_step; [eapply hr_step; [apply hr_init|
      apply (hs_register _ _ (mkWorker "w1"%string W_idle None 0 0 0 0))]|].
    apply (hs_recoveryStart _ _ _ "w1"%string). reflexivity. }
  assert (Hin : In ("w1"%string, 1) [("w1"%string, 1)]) by (left; reflexivity).
  split; [exact Hr|]. split; [exact Hin|].
  exact (recovery_attempts_bounded _ _ Hr "w1"%string 1 Hin).
Defined.

End HealthMonitorOpsProofs.

(** ** The rest of the task orchestrator *)
Section OrchestratorOpsProofs.
Import Orchestrator OrchRuns Scenarios.

Lemma scheduleLoop_spec (cfg : TaskOrchestratorConfig) (n : nat) :
  forall st ids,
  let r := scheduleLoop cfg n st ids in
  fst r = ids ++ seq (length (tasks st)) n /\
  tasks (snd r) = tasks st ++ map (fun i => {| t_id := i; t_assignedWorker := None;
                                              t_attempts := 0;
                                              t_maxAttempts := maxRetryAttempts cfg;
                                              t_status := T_queued; t_errorMessage := None |})
                                  (seq (length (tasks st)) n) /\
  pending (snd r) = pending st ++ seq (length (tasks st)) n /\
  inProgress (snd r) = inProgress st /\ completed (snd r) = completed st /\
  failed (snd r) = failed st /\ timers (snd r) = timers st /\
  workerObjs (snd r) = workerObjs st /\ workers (snd r) = workers st.
Proof.
  induction n as [|n IH]; intros st ids; cbn [scheduleLoop seq map].
  - rewrite !app_nil_r. repeat split.
  - cbv zeta. destruct (IH (with_queues (with_tasks st (tasks st ++ [
        {| t_id := length (tasks st); t_assignedWorker := None; t_attempts := 0;
           t_maxAttempts := maxRetryAttempts cfg; t_status := T_queued;
           t_errorMessage := None |}]))
      (pending st ++ [length (tasks st)]) (inProgress st) (completed st) (failed st) (timers st))
      (ids ++ [length (tasks st)])) as (E1 & E2 & E3 & E4 & E5 & E6 & E7 & E8 & E9).
    cbn [tasks pending inProgress completed failed timers workerObjs workers
         with_queues with_tasks] in *.
    rewrite length_app in E1, E2, E3. cbn [length] in E1, E2, E3.
    rewrite Nat.add_1_r in E1, E2, E3.
    rewrite E1, E2, E3, E4, E5, E6, E7, E8, E9.
    rewrite <- !app_assoc. repeat split.
Qed.

(** X16: [scheduleAccountCreation(n)] creates [n] tasks, each queued
    with 0 attempts and [maxAttempts = maxRetryAttempts], appends their ids
    to the back of [pending] in creation order and returns those ids; no
    other queue is touched. *)
Theorem scheduleAccountCreation_appends (cfg : TaskOrchestratorConfig) (n : nat)
    (st : OrchState) :
  let ids := fst (scheduleAccountCreation cfg n st) in
  let st' := snd (scheduleAccountCreation cfg n st) in
  length ids = n /\
  pending st' = pending st ++ ids /\
  tasks st' = tasks st ++ map (fun i => {| t_id := i; t_assignedWorker := None;
                                          t_attempts := 0;
                                          t_maxAttempts := maxRetryAttempts cfg;
                                          t_status := T_queued; t_errorMessage := None |}) ids /\
  inProgress st' = inProgress st /\ completed st' = completed st /\
  failed st' = failed st /\ timers st' = timers st.
Proof.
  unfold scheduleAccountCreation.
  destruct (scheduleLoop_spec cfg n st []) as (E1 & E2 & E3 & E4 & E5 & E6 & E7 & _).
  cbv zeta. rewrite E1. cbn [app]. rewrite length_seq.
  split; [reflexivity|]. split; [exact E3|]. split; [exact E2|].
  split; [exact E4|]. split; [exact E5|]. split; [exact E6|exact E7].
Qed.

Lemma fold_select_spec (st : OrchState) (rest : list nat) :
  forall b l1 l2,
  (forall w', In w' l1 -> w_tasksCompleted (getWorker st b) < w_tasksCompleted (getWorker st w')) ->
  (forall w', In w' l2 -> w_tasksCompleted (getWorker st b) <= w_tasksCompleted (getWorker st w')) ->
  let r := fold_left (fun best cur =>
             if w_tasksCompleted (getWorker st cur) <? w_tasksCompleted (getWorker st best)
             then cur else best) rest b in
  exists l1' l2', l1 ++ b :: l2 ++ rest = l1' ++ r :: l2' /\
    (forall w', In w' l1' -> w_tasksCompleted (getWorker st r) < w_tasksCompleted (getWorker st w')) /\
    (forall w', In w' l2' -> w_tasksCompleted (getWorker st r) <= w_tasksCompleted (getWorker st w')).
Proof.
  induction rest as [|cur rest IH]; intros b l1 l2 H1 H2; cbn [fold_left].
  - exists l1, l2. rewrite app_nil_r. split; [reflexivity|]. split; assumption.
  - destruct (w_tasksCompleted (getWorker st cur) <? w_tasksCompleted (getWorker st b)) eqn:E.
    + apply Z.ltb_lt in E.
      destruct (IH cur (l1 ++ b :: l2) [])
        as (l1' & l2' & Eq & A & B).
      * intros w' Hin. apply in_app_or in Hin. destruct Hin as [Hin|[<-|Hin]].
        -- specialize (H1 _ Hin). lia.
        -- exact E.
        -- specialize (H2 _ Hin). lia.
      * intros w' [].
      * exists l1', l2'. split; [|split; assumption].
        rewrite <- Eq. rewrite <- app_assoc. reflexivity.
    + apply Z.ltb_ge in E.
      destruct (IH b l1 (l2 ++ [cur])) as (l1' & l2' & Eq & A & B).
      * exact H1.
      * intros w' Hin. apply in_app_or in Hin. destruct Hin as [Hin|[<-|[]]].
        -- exact (H2 _ Hin).
        -- exact E.
      * exists l1', l2'. split; [|split; assumption].
        rewrite <- Eq. rewrite <- app_assoc. reflexivity.
Qed.

(** X17: [selectOptimalWorker] returns nothing only for an empty list;
    otherwise it returns the first worker of the list with the fewest
    completed tasks: every worker before it has strictly more, every worker
    after it at least as many. *)
Theorem selectOptimalWorker_first_minimum (st : OrchState) (available : list nat) :
  match selectOptimalWorker st available with
  | None => available = []
  | Some w =>
    exists l1 l2, available = l1 ++ w :: l2 /\
      (forall w', In w' l1 -> w_tasksCompleted (getWorker st w) < w_tasksCompleted (getWorker st w')) /\
      (forall w', In w' l2 -> w_tasksCompleted (getWorker st w) <= w_tasksCompleted (getWorker st w'))
  end.
Proof.
  destruct available as [|first rest]; cbn [selectOptimalWorker]; [reflexivity|].
  destruct (fold_select_spec st rest first [] [] (fun _ H => False_ind _ H) (fun _ H => False_ind _ H))
    as (l1 & l2 & Eq & A & B).
  exists l1, l2. split; [exact Eq|]. split; assumption.
Qed.

Lemma processPendingTasks_cases (cfg : TaskOrchestratorConfig) (allowed : bool)
    (st : OrchState) :
  processPendingTasks cfg allowed st = st \/
  (isPaused st = false /\ allowed = true /\ getAvailableWorkers st <> [] /\
   Z.of_nat (length (inProgress st)) < maxConcurrentTasks cfg /\
   exists tid rest, pending st = tid :: rest /\
     processPendingTasks cfg allowed st = distributeTask st tid (getAvailableWorkers st)).
Proof.
  unfold processPendingTasks.
  destruct (isPaused st) eqn:Hp; cbn [orb]; [left; reflexivity|].
  destruct (length (pending st) =? 0)%nat eqn:Hl; [left; reflexivity|].
  destruct allowed; cbn [negb]; [|left; reflexivity].
  destruct (getAvailableWorkers st) as [|a av] eqn:Ha; [left; reflexivity|].
  destruct (Z.le_gt_cases
              (Z.min (Z.min (Z.min (Z.of_nat (length (pending st))) (Z.of_nat (length (a :: av))))
                            (maxConcurrentTasks cfg - Z.of_nat (length (inProgress st)))) 1) 0)
    as [Hm|Hm].
  - left. replace (Z.to_nat _) with 0%nat by lia. reflexivity.
  - right. replace (Z.to_nat _) with 1%nat by lia. cbn [processLoop].
    destruct (pending st) as [|tid rest] eqn:Hpd; [discriminate Hl|].
    split; [reflexivity|]. split; [reflexivity|]. split; [discriminate|].
    split; [lia|]. exists tid, rest. split; reflexivity.
Qed.

(** X18: one [processPendingTasks()] either changes nothing or hands the
    head of [pending] to [distributeTask] with the idle workers; the latter
    only when the orchestrator is not paused, the rate limiter allows it, an
    idle worker exists and fewer than [maxConcurrentTasks] tasks are in
    progress.  At most one task is dispatched per tick. *)
Theorem processPendingTasks_at_most_one (cfg : TaskOrchestratorConfig) (allowed : bool)
    (st : OrchState) :
  processPendingTasks cfg allowed st = st \/
  (isPaused st = false /\ allowed = true /\ getAvailableWorkers st <> [] /\
   Z.of_nat (length (inProgress st)) < maxConcurrentTasks cfg /\
   exists tid rest, pending st = tid :: rest /\
     processPendingTasks cfg allowed st = distributeTask st tid (getAvailableWorkers st)).
Proof. exact (processPendingTasks_cases cfg allowed st). Qed.

Lemma nth_list_update_neq {A} (l : list A) n m f d :
  n <> m -> nth m (list_update l n f) d = nth m l d.
Proof.
  revert n m; induction l as [|a l IH]; intros [|n] [|m] H; cbn; try reflexivity.
  - contradiction.
  - apply IH. lia.
Qed.

(** X19: when [selectOptimalWorker] picks a worker, [distributeTask]
    marks the task in progress and assigned to that worker's id, marks the
    worker busy on that task, moves the task from [pending] to [inProgress]
    and starts one execution for the pair. *)
Theorem distributeTask_assigns (st : OrchState) (tid : nat) (available : list nat)
    (wref : nat) :
  selectOptimalWorker st available = Some wref ->
  (tid < length (tasks st))%nat ->
  (wref < length (workerObjs st))%nat ->
  let st' := distributeTask st tid available in
  t_status (getTask st' tid) = T_inProgress /\
  t_assignedWorker (getTask st' tid) = Some (w_id (getWorker st wref)) /\
  w_status (getWorker st' wref) = W_busy /\
  w_currentTask (getWorker st' wref) = Some tid /\
  pending st' = remove_first tid (pending st) /\
  In tid (inProgress st') /\
  inflight st' = inflight st ++ [(tid, wref)].
Proof.
  intros Hsel Ht Hw. cbv zeta. unfold distributeTask. rewrite Hsel.
  unfold getTask, getWorker, updWorkerAndSet, updTask, with_inflight, with_workers,
    with_queues, with_tasks.
  cbn [tasks workerObjs pending inProgress inflight].
  rewrite !nth_list_update_eq by assumption. cbn [t_status t_assignedWorker w_status w_currentTask].
  split; [reflexivity|]. split; [reflexivity|]. split; [reflexivity|].
  split; [reflexivity|]. split; [reflexivity|]. split; [|reflexivity].
  unfold ip_set. destruct (existsb (Nat.eqb tid) (inProgress st)) eqn:E.
  - apply existsb_exists in E. destruct E as [x [Hx Ex]]. apply Nat.eqb_eq in Ex. subst x.
    exact Hx.
  - apply in_or_app. right. left. reflexivity.
Qed.

(** Witness for X19: the task scheduled in [a1] and worker "w1". *)
Lemma distributeTask_assigns_witness :
  selectOptimalWorker a1 (getAvailableWorkers a1) = Some 0%nat /\
  (0 < length (tasks a1))%nat /\ (0 < length (workerObjs a1))%nat /\
  w_currentTask (getWorker (distributeTask a1 0 (getAvailableWorkers a1)) 0) = Some 0%nat.
Proof.
  assert (H1 : selectOptimalWorker a1 (getAvailableWorkers a1) = Some 0%nat) by (vm_compute; reflexivity).
  assert (H2 : (0 < length (tasks a1))%nat) by (vm_compute; lia).
  assert (H3 : (0 < length (workerObjs a1))%nat) by (vm_compute; lia).
  split; [exact H1|]. split; [exact H2|]. split; [exact H3|].
  exact (proj1 (proj2 (proj2 (proj2 (distributeTask_assigns a1 0 _ 0 H1 H2 H3))))).
Defined.

Lemma filter_filter_andb {A} (p q : A -> bool) (l : list A) :
  filter p (filter q l) = filter (fun y => q y && p y) l.
Proof.
  induction l as [|y l IH]; cbn; [reflexivity|].
  destruct (q y); cbn; [destruct (p y); cbn; [f_equal|]|]; exact IH.
Qed.

Lemma fold_reassign_fields (R : list nat) :
  forall st,
  let st' := fold_left reassignTask R st in
  pending st' = rev R ++ pending st /\
  inProgress st' = filter (fun y => forallb (fun x => negb (Nat.eqb x y)) R) (inProgress st) /\
  completed st' = completed st /\ failed st' = failed st /\ timers st' = timers st /\
  workerObjs st' = workerObjs st /\ workers st' = workers st /\
  length (tasks st') = length (tasks st).
Proof.
  induction R as [|x R IH]; intros st; cbn [fold_left rev].
  - cbv zeta. split; [reflexivity|]. split; [|repeat split].
    clear. induction (inProgress st) as [|y l IHl]; cbn; [reflexivity|]. f_equal. exact IHl.
  - destruct (IH (reassignTask st x)) as (E1 & E2 & E3 & E4 & E5 & E6 & E7 & E8).
    cbn [reassignTask with_queues updTask with_tasks pending inProgress completed failed timers
         workerObjs workers tasks] in *.
    rewrite E1, E2, E3, E4, E5, E6, E7, E8, length_list_update.
    rewrite <- app_assoc. cbn [app].
    split; [reflexivity|]. split; [|repeat split].
    unfold ip_delete. rewrite filter_filter_andb. apply filter_ext. intros y. reflexivity.
Qed.

Lemma reassignTask_getTask_same (st : OrchState) (x : nat) :
  t_status (getTask (reassignTask st x) x) = T_queued /\
  t_assignedWorker (getTask (reassignTask st x) x) = None.
Proof.
  unfold getTask, reassignTask, with_queues, updTask, with_tasks. cbn [tasks].
  destruct (Nat.lt_ge_cases x (length (tasks st))) as [H|H].
  - rewrite nth_list_update_eq by exact H. split; reflexivity.
  - rewrite nth_overflow by (rewrite length_list_update; exact H). split; reflexivity.
Qed.

Lemma reassignTask_getTask_other (st : OrchState) (x y : nat) :
  x <> y -> getTask (reassignTask st x) y = getTask st y.
Proof.
  intros H. unfold getTask, reassignTask, with_queues, updTask, with_tasks. cbn [tasks].
  apply nth_list_update_neq. exact H.
Qed.

Lemma fold_reassign_tasks (R : list nat) :
  forall st y,
  In y R \/ (t_status (getTask st y) = T_queued /\ t_assignedWorker (getTask st y) = None) ->
  t_status (getTask (fold_left reassignTask R st) y) = T_queued /\
  t_assignedWorker (getTask (fold_left reassignTask R st) y) = None.
Proof.
  induction R as [|x R IH]; intros st y H; cbn [fold_left].
  - destruct H as [[]|H]. exact H.
  - apply IH. destruct (In_dec Nat.eq_dec y R) as [Hin|Hnin]; [left; exact Hin|right].
    destruct (Nat.eq_dec x y) as [<-|Hne]; [apply reassignTask_getTask_same|].
    rewrite reassignTask_getTask_other by exact Hne.
    destruct H as [[E|E]|H]; [congruence|contradiction|exact H].
Qed.

Lemma updWorkerAndSet_fields (st : OrchState) (wref : nat) (f : WorkerStatus -> WorkerStatus) :
  let st' := updWorkerAndSet st wref f in
  pending st' = pending st /\ inProgress st' = inProgress st /\ completed st' = completed st /\
  failed st' = failed st /\ timers st' = timers st /\
  (forall tid, getTask st' tid = getTask st tid) /\
  ((wref < length (workerObjs st))%nat -> getWorker st' wref = f (getWorker st wref)).
Proof.
  cbv zeta. repeat split. intros H. unfold getWorker, updWorkerAndSet, with_workers.
  cbn [workerObjs]. apply nth_list_update_eq. exact H.
Qed.

(** X20: when a registered worker fails, [handleWorkerFailure] takes
    every in-progress task assigned to it out of [inProgress] and puts them
    at the front of [pending] in reverse order of [inProgress], each queued
    and unassigned; [completed], [failed] and the retry timers are
    unchanged, and the worker ends [offline]. *)
Theorem handleWorkerFailure_requeues (now : Z) (st : OrchState) (workerId : string)
    (wref : nat) :
  map_get (workers st) workerId = Some wref ->
  (wref < length (workerObjs st))%nat ->
  let R := filter (fun tid => assignedTo workerId (getTask st tid)) (inProgress st) in
  let st' := handleWorkerFailure now st workerId in
  pending st' = rev R ++ pending st /\
  inProgress st' = filter (fun tid => negb (assignedTo workerId (getTask st tid))) (inProgress st) /\
  completed st' = completed st /\ failed st' = failed st /\ timers st' = timers st /\
  (forall tid, In tid R ->
     t_status (getTask st' tid) = T_queued /\ t_assignedWorker (getTask st' tid) = None) /\
  w_status (getWorker st' wref) = W_offline.
Proof.
  intros Hget Hlt. cbv zeta. unfold handleWorkerFailure. rewrite Hget.
  set (f := fun w : WorkerStatus =>
    {| w_id := w_id w; w_status := W_failed; w_currentTask := w_currentTask w;
       w_lastHeartbeat := now; w_tasksCompleted := w_tasksCompleted w;
       w_tasksSuccessful := w_tasksSuccessful w; w_tasksFailed := w_tasksFailed w |}).
  set (st1 := updWorkerAndSet st wref f).
  assert (Hgt : forall tid, getTask st1 tid = getTask st tid) by reflexivity.
  assert (Hip : inProgress st1 = inProgress st) by reflexivity.
  rewrite Hip. rewrite (filter_ext _ _ (fun tid => f_equal _ (Hgt tid))).
  set (R := filter (fun tid => assignedTo workerId (getTask st tid)) (inProgress st)).
  destruct (fold_reassign_fields R st1) as (E1 & E2 & E3 & E4 & E5 & E6 & E7 & E8).
  set (st2 := fold_left reassignTask R st1) in *.
  assert (Hw2 : map_get (workers st2) workerId = Some wref).
  { rewrite E7. unfold st1, updWorkerAndSet, with_workers. cbn [workers].
    destruct (String.eqb workerId (w_id (nth wref (list_update (workerObjs st) wref f) dummyWorker)))
      eqn:Eid.
    - apply String.eqb_eq in Eid. rewrite Eid. apply map_get_set_eq.
    - apply String.eqb_neq in Eid. rewrite map_get_set_neq by exact Eid. exact Hget. }
  unfold attemptWorkerRecovery. rewrite Hw2.
  match goal with |- context [updWorkerAndSet st2 wref ?g] =>
    destruct (updWorkerAndSet_fields st2 wref g) as (U1 & U2 & U3 & U4 & U5 & U6 & U7)
  end.
  rewrite U1, U2, U3, U4, U5, E1, E2, E3, E4, E5.
  split; [reflexivity|]. split.
  { apply filter_ext_in. intros y Hy.
    destruct (assignedTo workerId (getTask st y)) eqn:Ea; cbn [negb].
    - destruct (forallb _ R) eqn:F; [|reflexivity].
      rewrite forallb_forall in F.
      specialize (F y (proj2 (filter_In _ _ _) (conj Hy Ea))).
      rewrite Nat.eqb_refl in F. discriminate F.
    - apply forallb_forall. intros x Hx. apply filter_In in Hx. destruct Hx as [_ Hx].
      destruct (Nat.eqb x y) eqn:Exy; [|reflexivity].
      apply Nat.eqb_eq in Exy. subst x. congruence. }
  split; [reflexivity|]. split; [reflexivity|]. split; [reflexivity|]. split.
  - intros tid Hin. rewrite U6. apply fold_reassign_tasks. left. exact Hin.
  - rewrite U7; [reflexivity|].
    rewrite E6. unfold st1, updWorkerAndSet, with_workers. cbn [workerObjs].
    rewrite length_list_update. exact Hlt.
Qed.

(** Witness for X20: "w1" fails while it runs task 0 in [a2]. *)
Lemma handleWorkerFailure_requeues_witness :
  map_get (workers a2) "w1"%string = Some 0%nat /\ (0 < length (workerObjs a2))%nat /\
  pending (handleWorkerFailure 20000 a2 "w1"%string) = [0%nat].
Proof.
  assert (H1 : map_get (workers a2) "w1"%string = Some 0%nat) by (vm_compute; reflexivity).
  assert (H2 : (0 < length (workerObjs a2))%nat) by (vm_compute; lia).
  split; [exact H1|]. split; [exact H2|].
  rewrite (proj1 (handleWorkerFailure_requeues 20000 a2 "w1"%string 0 H1 H2)).
  vm_compute. reflexivity.
Defined.

(** X21: [registerWorker(id)] maps [id] to a fresh worker object,
    idle with no task and zero counters, which is at once among
    [getAvailableWorkers()]. *)
Theorem registerWorker_available (now : Z) (st : OrchState) (workerId : string) :
  let st' := registerWorker now st workerId in
  map_get (workers st') workerId = Some (length (workerObjs st)) /\
  getWorker st' (length (workerObjs st)) = mkWorker workerId W_idle None now 0 0 0 /\
  In (length (workerObjs st)) (getAvailableWorkers st').
Proof.
  cbv zeta.
  assert (Hg : getWorker (registerWorker now st workerId) (length (workerObjs st))
               = mkWorker workerId W_idle None now 0 0 0).
  { unfold getWorker, registerWorker, with_workers. cbn [workerObjs].
    rewrite app_nth2, Nat.sub_diag by lia. reflexivity. }
  assert (Hm : map_get (workers (registerWorker now st workerId)) workerId
               = Some (length (workerObjs st))) by apply map_get_set_eq.
  split; [exact Hm|]. split; [exact Hg|].
  unfold getAvailableWorkers. apply filter_In. split.
  - apply in_map_iff. exists (workerId, length (workerObjs st)).
    split; [reflexivity|]. exact (map_get_In _ _ _ Hm).
  - rewrite Hg. reflexivity.
Qed.

Lemma length_ip_set l x : (length (ip_set l x) <= S (length l))%nat.
Proof.
  unfold ip_set. destruct (existsb _ _); [lia|]. rewrite length_app. cbn. lia.
Qed.

Lemma length_ip_delete l x : (length (ip_delete l x) <= length l)%nat.
Proof. apply filter_length_le. Qed.

Lemma distributeTask_ip st tid available :
  (length (inProgress (distributeTask st tid available)) <= S (length (inProgress st)))%nat.
Proof.
  unfold distributeTask. destruct (selectOptimalWorker st available); [|lia].
  apply length_ip_set.
Qed.

Lemma failTask_ip now st tid wref msg :
  (length (inProgress (failTask now st tid wref msg)) <= length (inProgress st))%nat.
Proof.
  assert (H : inProgress (failTaskRecord now st tid wref msg) = inProgress st)
    by (unfold failTaskRecord; destruct wref; reflexivity).
  unfold failTask. destruct (_ <? _); cbn [inProgress with_queues updTask with_tasks];
    rewrite <- H; apply length_ip_delete.
Qed.

Lemma handleWorkerFailure_ip now st workerId :
  (length (inProgress (handleWorkerFailure now st workerId)) <= length (inProgress st))%nat.
Proof.
  unfold handleWorkerFailure. destruct (map_get (workers st) workerId); [|lia].
  cbv zeta.
  match goal with |- context [fold_left reassignTask ?R ?s] =>
    destruct (fold_reassign_fields R s) as (_ & E2 & _);
    set (st2 := fold_left reassignTask R s) in *
  end.
  assert (H : inProgress (attemptWorkerRecovery st2 workerId) = inProgress st2)
    by (unfold attemptWorkerRecovery; destruct (map_get _ _); reflexivity).
  rewrite H, E2. apply filter_length_le.
Qed.

(** X22: in every state the orchestrator reaches from its empty
    start, with or without timeouts, at most [maxConcurrentTasks] tasks are
    in progress (none when the limit is not positive). *)
Theorem inProgress_within_maxConcurrentTasks (cfg : TaskOrchestratorConfig) (st : OrchState) :
  Reachable cfg st ->
  Z.of_nat (length (inProgress st)) <= Z.max 0 (maxConcurrentTasks cfg).
Proof.
  induction 1 as [|st st' _ IH Hs]; [cbn; lia|].
  destruct Hs as [st n|st allowed|st now tid wref success _|st tid _|st now tid _
                 |st now workerId|st now workerId|st workerId|st b].
  - destruct (scheduleLoop_spec cfg n st []) as (_ & _ & _ & E4 & _).
    unfold scheduleAccountCreation. rewrite E4. exact IH.
  - destruct (processPendingTasks_cases cfg allowed st)
      as [->|(_ & _ & _ & Hlt & tid & rest & _ & ->)]; [exact IH|].
    pose proof (distributeTask_ip st tid (getAvailableWorkers st)). lia.
  - unfold finishExecution. destruct success.
    + unfold completeTask, updWorkerAndSet, with_workers, with_queues, updTask, with_tasks.
      cbn [inProgress with_inflight].
      pose proof (length_ip_delete (inProgress st) tid). lia.
    + match goal with |- context [failTask ?a ?b ?c ?d ?e] =>
        pose proof (failTask_ip a b c d e) end.
      cbn [inProgress with_inflight] in *. lia.
  - exact IH.
  - unfold handleTaskTimeout. cbv zeta.
    match goal with |- context [failTask ?a ?b ?c ?d ?e] =>
      pose proof (failTask_ip a b c d e) end.
    destruct (match t_assignedWorker (getTask st tid) with
              | Some id => map_get (workers st) id | None => None end) as [r|].
    + pose proof (handleWorkerFailure_ip now st (w_id (getWorker st r))). lia.
    + lia.
  - pose proof (handleWorkerFailure_ip now st workerId). lia.
  - exact IH.
  - exact IH.
  - exact IH.
Qed.

(** Witness for X22: the state [a2], where task 0 runs on "w1". *)
Lemma inProgress_within_maxConcurrentTasks_witness :
  Reachable cfgTest a2 /\ Z.of_nat (length (inProgress a2)) <= Z.max 0 (maxConcurrentTasks cfgTest).
Proof.
  assert (Hr : Reachable cfgTest a2).
  { unfold a2, a1, a0.
    eapply r_step; [eapply r_step; [eapply r_step; [apply r_init|apply st_register]|
                                    apply st_schedule]|apply st_tick]. }
  split; [exact Hr|]. exact (inProgress_within_maxConcurrentTasks cfgTest a2 Hr).
Defined.

Lemma getTask_updTask_eq (st : OrchState) (tid : nat) (f : CreationTask -> CreationTask) :
  (tid < length (tasks st))%nat -> getTask (updTask st tid f) tid = f (getTask st tid).
Proof. intros H. apply nth_list_update_eq. exact H. Qed.

(** X23: when a task fails on its last allowed attempt, [failTask]
    counts the attempt, records the error, marks the task failed, appends it
    to [failed] and removes it from [inProgress], without a retry timer and
    without touching [pending]. *)
Theorem failTask_exhausted (now : Z) (st : OrchState) (tid : nat) (wref : option nat)
    (msg : string) :
  (tid < length (tasks st))%nat ->
  t_maxAttempts (getTask st tid) <= t_attempts (getTask st tid) + 1 ->
  let st' := failTask now st tid wref msg in
  failed st' = failed st ++ [tid] /\
  inProgress st' = ip_delete (inProgress st) tid /\
  pending st' = pending st /\ timers st' = timers st /\
  t_status (getTask st' tid) = T_failed /\
  t_attempts (getTask st' tid) = t_attempts (getTask st tid) + 1 /\
  t_errorMessage (getTask st' tid) = Some msg.
Proof.
  intros Hlt Hatt. cbv zeta. destruct (failTaskRecord_task now st tid wref msg Hlt) as [E1 E2].
  assert (Hlen : (tid < length (tasks (failTaskRecord now st tid wref msg)))%nat)
    by (unfold failTaskRecord; destruct wref; cbn; rewrite length_list_update; exact Hlt).
  assert (Hmsg : t_errorMessage (getTask (failTaskRecord now st tid wref msg) tid) = Some msg)
    by (unfold failTaskRecord, getTask; destruct wref;
        cbn [tasks updWorkerAndSet with_workers updTask with_tasks];
        rewrite nth_list_update_eq by exact Hlt; reflexivity).
  assert (Hq : pending (failTaskRecord now st tid wref msg) = pending st /\
               inProgress (failTaskRecord now st tid wref msg) = inProgress st /\
               failed (failTaskRecord now st tid wref msg) = failed st /\
               timers (failTaskRecord now st tid wref msg) = timers st)
    by (unfold failTaskRecord; destruct wref; repeat split).
  destruct Hq as (Q1 & Q2 & Q3 & Q4).
  unfold failTask. rewrite E1, E2.
  replace (_ <? _) with false by (symmetry; apply Z.ltb_ge; exact Hatt).
  cbn [with_queues failed inProgress pending timers].
  change (pending (updTask ?s ?i ?g)) with (pending s).
  change (inProgress (updTask ?s ?i ?g)) with (inProgress s).
  change (failed (updTask ?s ?i ?g)) with (failed s).
  change (timers (updTask ?s ?i ?g)) with (timers s).
  rewrite Q1, Q2, Q3, Q4.
  split; [reflexivity|]. split; [reflexivity|]. split; [reflexivity|]. split; [reflexivity|].
  change (getTask (with_queues ?s ?p ?i ?c ?f ?t) tid) with (getTask s tid).
  rewrite !getTask_updTask_eq by exact Hlen.
  cbn [setTaskFields t_status t_attempts t_errorMessage]. rewrite E1, Hmsg. repeat split.
Qed.

(** Witness for X23: with [maxRetryAttempts = 1], the first failure
    of the task dispatched in [b2]. *)
Lemma failTask_exhausted_witness :
  (0 < length (tasks b2))%nat /\
  t_maxAttempts (getTask b2 0) <= t_attempts (getTask b2 0) + 1 /\
  failed (failTask 40000 b2 0 (Some 0%nat) "Simulated task failure") = [0%nat].
Proof.
  assert (H1 : (0 < length (tasks b2))%nat) by (vm_compute; lia).
  assert (H2 : t_maxAttempts (getTask b2 0) <= t_attempts (getTask b2 0) + 1)
    by (vm_compute; discriminate).
  split; [exact H1|]. split; [exact H2|].
  rewrite (proj1 (failTask_exhausted 40000 b2 0 (Some 0%nat) "Simulated task failure" H1 H2)).
  vm_compute. reflexivity.
Defined.

End OrchestratorOpsProofs.

(** ** Retry order of failed tasks *)
Section RetryOrder.
Import Orchestrator OrchRuns Scenarios.

Lemma failTask_pending now st tid wref msg :
  pending (failTask now st tid wref msg) = pending st.
Proof.
  assert (H : pending (failTaskRecord now st tid wref msg) = pending st)
    by (unfold failTaskRecord; destruct wref; reflexivity).
  unfold failTask. destruct (_ <? _); exact H.
Qed.

Lemma handleWorkerFailure_pending now st workerId :
  exists R, (forall x, In x R -> In x (inProgress st)) /\
    pending (handleWorkerFailure now st workerId) = pending (fold_left reassignTask R st).
Proof.
  unfold handleWorkerFailure. destruct (map_get (workers st) workerId) as [wref|].
  - cbv zeta.
    match goal with |- context [fold_left reassignTask ?R ?s] =>
      exists R; split;
      [intros x Hx; apply filter_In in Hx; exact (proj1 Hx)|];
      destruct (fold_reassign_fields R s) as (E1 & _);
      destruct (fold_reassign_fields R st) as (E1' & _);
      assert (H : pending (attemptWorkerRecovery (fold_left reassignTask R s) workerId)
                  = pending (fold_left reassignTask R s))
        by (unfold attemptWorkerRecovery; destruct (map_get _ _); reflexivity)
    end.
    rewrite H, E1, E1'. reflexivity.
  - exists []. split; [intros _ []|reflexivity].
Qed.

Lemma Step_pending (cfg : TaskOrchestratorConfig) (s s' : OrchState) :
  Step cfg s s' ->
  (exists l, pending s' = pending s ++ l) \/
  (exists x, pending s = x :: pending s') \/
  (exists R, (forall x, In x R -> In x (inProgress s)) /\
             pending s' = pending (fold_left reassignTask R s)).
Proof.
  intros Hs.
  destruct Hs as [st n|st allowed|st now tid wref success _|st tid _|st now tid _
                 |st now workerId|st now workerId|st workerId|st b].
  - left. destruct (scheduleLoop_spec cfg n st []) as (_ & _ & E3 & _).
    unfold scheduleAccountCreation. rewrite E3. eexists. reflexivity.
  - destruct (processPendingTasks_cases cfg allowed st)
      as [->|(_ & _ & _ & _ & tid & rest & Hp & ->)].
    + left. exists []. rewrite app_nil_r. reflexivity.
    + unfold distributeTask. destruct (selectOptimalWorker st (getAvailableWorkers st)).
      * right; left. exists tid. cbn [pending with_inflight updWorkerAndSet with_workers
          with_queues updTask with_tasks]. rewrite Hp. cbn [remove_first].
        rewrite Nat.eqb_refl. reflexivity.
      * left. exists []. rewrite app_nil_r. reflexivity.
  - left. exists []. rewrite app_nil_r. unfold finishExecution. destruct success.
    + reflexivity.
    + rewrite failTask_pending. reflexivity.
  - left. exists [tid]. reflexivity.
  - right; right. unfold handleTaskTimeout. cbv zeta. rewrite failTask_pending.
    destruct (match t_assignedWorker (getTask st tid) with
              | Some id => map_get (workers st) id | None => None end) as [r|].
    + exact (handleWorkerFailure_pending now st (w_id (getWorker st r))).
    + exists []. split; [intros _ []|reflexivity].
  - right; right. exact (handleWorkerFailure_pending now st workerId).
  - left. exists []. rewrite app_nil_r. reflexivity.
  - left. exists []. rewrite app_nil_r. reflexivity.
  - left. exists []. rewrite app_nil_r. reflexivity.
Qed.

(** C3 (amended): a failed task with attempts left is taken out of
    [inProgress] without touching [pending] and waits on a retry timer.
    Whenever that timer fires, in whatever state the queues are by then, it
    is appended at the back of [pending], after every task pending at that
    moment.  No operation of the orchestrator inserts into [pending] other
    than at the back, except [handleWorkerFailure] and [handleTaskTimeout],
    whose insertions at the front are made by [reassignTask] calls on tasks
    that were in progress: every step appends at the back, removes the head
    (a dispatch), or is a series of [reassignTask] calls on [pending]. *)
Theorem failTask_retry_goes_to_back (cfg : TaskOrchestratorConfig) (now : Z) (st : OrchState)
    (tid : nat) (wref : option nat) (msg : string) :
  (tid < length (tasks st))%nat ->
  t_attempts (getTask st tid) + 1 < t_maxAttempts (getTask st tid) ->
  let st' := failTask now st tid wref msg in
  pending st' = pending st /\
  inProgress st' = ip_delete (inProgress st) tid /\
  ~ In tid (inProgress st') /\
  timers st' = timers st ++ [tid] /\
  (forall s, pending (fireTimer s tid) = pending s ++ [tid]) /\
  (forall s s', Step cfg s s' ->
     (exists l, pending s' = pending s ++ l) \/
     (exists x, pending s = x :: pending s') \/
     (exists R, (forall x, In x R -> In x (inProgress s)) /\
                pending s' = pending (fold_left reassignTask R s))).
Proof.
  intros Hlt Hatt. cbv zeta. destruct (failTaskRecord_task now st tid wref msg Hlt) as [E1 E2].
  assert (Hq : pending (failTaskRecord now st tid wref msg) = pending st /\
               inProgress (failTaskRecord now st tid wref msg) = inProgress st /\
               timers (failTaskRecord now st tid wref msg) = timers st)
    by (unfold failTaskRecord; destruct wref; repeat split).
  destruct Hq as (Q1 & Q2 & Q3).
  assert (Hip : inProgress (failTask now st tid wref msg) = ip_delete (inProgress st) tid).
  { unfold failTask. rewrite E1, E2.
    replace (_ <? _) with true by (symmetry; apply Z.ltb_lt; exact Hatt).
    cbn [with_queues inProgress]. rewrite <- Q2. reflexivity. }
  split; [apply failTask_pending|]. split; [exact Hip|]. split.
  { rewrite Hip. unfold ip_delete. intros Hin. apply filter_In in Hin.
    destruct Hin as [_ Hn]. rewrite Nat.eqb_refl in Hn. discriminate Hn. }
  split.
  { unfold failTask. rewrite E1, E2.
    replace (_ <? _) with true by (symmetry; apply Z.ltb_lt; exact Hatt).
    cbn [with_queues timers]. rewrite <- Q3. reflexivity. }
  split; [intros s; reflexivity|].
  intros s s' Hs. exact (Step_pending cfg s s' Hs).
Qed.

(** Witness for C3: task 0 of [d2] fails with attempts left. *)
Lemma failTask_retry_goes_to_back_witness :
  (0 < length (tasks d2))%nat /\
  t_attempts (getTask d2 0) + 1 < t_maxAttempts (getTask d2 0) /\
  ~ In 0%nat (inProgress (failTask 20000 d2 0 (Some 0%nat) "Simulated task failure")).
Proof.
  assert (H1 : (0 < length (tasks d2))%nat) by (vm_compute; lia).
  assert (H2 : t_attempts (getTask d2 0) + 1 < t_maxAttempts (getTask d2 0))
    by (vm_compute; reflexivity).
  split; [exact H1|]. split; [exact H2|].
  exact (proj1 (proj2 (proj2 (failTask_retry_goes_to_back cfgTest 20000 d2 0 (Some 0%nat)
                                "Simulated task failure" H1 H2)))).
Defined.

End RetryOrder.
